(** * MultiDayTestShape: a load shape spanning several simulated days

    Shallow embedding of [multi_day_test_shape.py].

    Conventions of the model.
    - A Python [float] is a real number: [+], [*], [/] are exact, [sin] and
      [pi] are the real sine and the real number pi.  Rounding of binary64
      arithmetic is not modelled.
    - A Python [int] is a [Z].
    - [time.perf_counter()] is an effect: every call consumes one reading of a
      clock.  [tick] reads the clock five times; the specification's
      [evaluate(elapsed)] is [tick] run on a clock that shows the same
      reading at every call.
    - [datetime] and [timedelta] follow the documented behaviour of the
      standard library: microsecond resolution, a float number of seconds is
      kept to the nearest microsecond with ties going to the even one,
      [OverflowError] outside the representable range.  The interpreter
      rounds the binary64 product of the fractional second with 10^6, the
      model the exact product; the two can differ only where the elapsed
      time is within a billionth of a microsecond of a tie.  Statements that
      name the microseconds kept are therefore made through
      [kept_microseconds], which leaves the choice at a tie open. *)

From Stdlib Require Import Reals ZArith List Bool Lra Lia.
Import ListNotations.

(** ** Python built-ins used by the shape *)

Module Py.

Inductive exn : Type := OverflowError.

Inductive outcome (A : Type) : Type :=
| Ret (a : A)
| Raise (e : exn).
Arguments Ret {A} a.
Arguments Raise {A} e.

(** [math.floor] on a float: the largest integer not above [x]. *)
Definition floor (x : R) : Z := Int_part x.

(** [round(x)] with one argument: nearest integer, a tie goes to the even
    neighbour. *)
Definition round (x : R) : Z :=
  let n := Int_part x in
  let r := (x - IZR n)%R in
  if Rlt_dec r (1 / 2) then n
  else if Rlt_dec (1 / 2) r then (n + 1)%Z
  else if Z.even n then n else (n + 1)%Z.

(** [x in (a, b, ...)] on integers. *)
Definition contains (x : Z) (xs : list Z) : bool := existsb (Z.eqb x) xs.

End Py.

Import Py.

(** ** The parts of the [datetime] module the shape relies on *)

Module Datetime.

Local Open Scope Z_scope.

Definition US_PER_SECOND : Z := 1000000.
Definition SECONDS_PER_DAY : Z := 86400.
Definition US_PER_DAY : Z := SECONDS_PER_DAY * US_PER_SECOND.
Definition MAX_DELTA_DAYS : Z := 999999999.
Definition MAXORDINAL : Z := 3652059.

(** A [timedelta] stores normalised days, seconds and microseconds. *)
Record timedelta : Type := mk_timedelta
  { days : Z; seconds : Z; microseconds : Z }.

Definition to_us (td : timedelta) : Z :=
  (days td * SECONDS_PER_DAY + seconds td) * US_PER_SECOND + microseconds td.

(** Normalisation by the two [divmod]s of the constructor. *)
Definition of_us (us : Z) : timedelta :=
  {| days := us / US_PER_DAY;
     seconds := (us mod US_PER_DAY) / US_PER_SECOND;
     microseconds := us mod US_PER_SECOND |}.

Definition checked (td : timedelta) : outcome timedelta :=
  if Z.abs (days td) >? MAX_DELTA_DAYS then Raise OverflowError else Ret td.

(** [timedelta(days=d, hours=h)] on integers. *)
Definition timedelta_days_hours (d h : Z) : timedelta :=
  of_us ((d * SECONDS_PER_DAY + h * 3600) * US_PER_SECOND).

(** [timedelta(seconds=s)] on a float. *)
Definition timedelta_seconds (s : R) : outcome timedelta :=
  checked (of_us (Py.round (s * 1000000)%R)).

(** [td.total_seconds()]. *)
Definition total_seconds (td : timedelta) : R :=
  (IZR (to_us td) / 1000000)%R.

(** A naive [datetime]; the date is held as its proleptic Gregorian
    ordinal ([toordinal()]), day 1 being 0001-01-01. *)
Record datetime : Type := mk_datetime
  { ordinal : Z; hour : Z; minute : Z; second : Z; microsecond : Z }.

Definition is_leap (y : Z) : bool :=
  (y mod 4 =? 0) && (negb (y mod 100 =? 0) || (y mod 400 =? 0)).

Definition days_before_year (y : Z) : Z :=
  let p := y - 1 in p * 365 + p / 4 - p / 100 + p / 400.

Definition days_in_month (y m : Z) : Z :=
  if m =? 2 then (if is_leap y then 29 else 28)
  else if Py.contains m [4; 6; 9; 11] then 30 else 31.

Fixpoint days_before_month_upto (y : Z) (n : nat) : Z :=
  match n with
  | O => 0
  | S k => days_before_month_upto y k + days_in_month y (Z.of_nat n)
  end.

Definition days_before_month (y m : Z) : Z :=
  days_before_month_upto y (Z.to_nat (m - 1)).

Definition ymd2ord (y m d : Z) : Z :=
  days_before_year y + days_before_month y m + d.

(** [datetime(y, m, d, h)]. *)
Definition datetime_ymdh (y m d h : Z) : datetime :=
  {| ordinal := ymd2ord y m d; hour := h; minute := 0; second := 0;
     microsecond := 0 |}.

Definition second_of_day (dt : datetime) : Z :=
  hour dt * 3600 + minute dt * 60 + second dt.

(** Microseconds from the start of day 0 to [dt]. *)
Definition instant_us (dt : datetime) : Z :=
  (ordinal dt * SECONDS_PER_DAY + second_of_day dt) * US_PER_SECOND
  + microsecond dt.

(** [dt + td]. *)
Definition add (dt : datetime) (td : timedelta) : outcome datetime :=
  let delta := of_us (instant_us dt + to_us td) in
  if (0 <? days delta) && (days delta <=? MAXORDINAL) then
    Ret {| ordinal := days delta;
           hour := seconds delta / 3600;
           minute := (seconds delta mod 3600) / 60;
           second := (seconds delta mod 3600) mod 60;
           microsecond := microseconds delta |}
  else Raise OverflowError.

(** [a - b] on two datetimes. *)
Definition sub (a b : datetime) : timedelta :=
  of_us (((ordinal a - ordinal b) * SECONDS_PER_DAY
          + (second_of_day a - second_of_day b)) * US_PER_SECOND
         + (microsecond a - microsecond b)).

(** [dt.isoweekday()]: 1 is Monday, 7 is Sunday. *)
Definition isoweekday (dt : datetime) : Z :=
  let r := ordinal dt mod 7 in if r =? 0 then 7 else r.

Definition valid (dt : datetime) : Prop :=
  1 <= ordinal dt <= MAXORDINAL /\ 0 <= hour dt < 24 /\
  0 <= minute dt < 60 /\ 0 <= second dt < 60 /\
  0 <= microsecond dt < US_PER_SECOND.

End Datetime.

(** ** Computations that read the clock and may raise *)

(** The n-th call of [time.perf_counter()] returns [clk n]. *)
Definition clock : Type := nat -> R.

Definition M (A : Type) : Type := clock -> nat -> outcome A * nat.

Definition ret {A : Type} (a : A) : M A := fun _ n => (Ret a, n).

Definition bind {A B : Type} (c : M A) (k : A -> M B) : M B :=
  fun clk n =>
    match c clk n with
    | (Ret a, n') => k a clk n'
    | (Raise e, n') => (Raise e, n')
    end.

Definition lift {A : Type} (o : outcome A) : M A := fun _ n => (o, n).

Definition perf_counter : M R := fun clk n => (Ret (clk n), S n).

Notation "x <- c1 ;; c2" := (bind c1 (fun x => c2))
  (at level 61, c1 at next level, right associativity).

(** A clock that stands still. *)
Definition frozen (t : R) : clock := fun _ => t.

Definition monotone (clk : clock) : Prop :=
  forall i j : nat, (i <= j)%nat -> (clk i <= clk j)%R.

(** ** The class *)

Record MultiDayTestShape : Type := mk_shape
  { reference_dt : Datetime.datetime;
    run_duration : Datetime.timedelta;
    start_time : R }.

(** An instance with the class attributes as written, whose base class
    recorded [start_time] when the run began. *)
Definition sample_shape (started : R) : MultiDayTestShape :=
  {| reference_dt := Datetime.datetime_ymdh 2025 6 15 12;
     run_duration := Datetime.timedelta_days_hours 2 12;
     start_time := started |}.

(** The same instance with another [run_duration]. *)
Definition with_run_duration (self : MultiDayTestShape)
  (td : Datetime.timedelta) : MultiDayTestShape :=
  {| reference_dt := reference_dt self;
     run_duration := td;
     start_time := start_time self |}.

Definition _current_dt (self : MultiDayTestShape) : M Datetime.datetime :=
  now <- perf_counter ;;
  td <- lift (Datetime.timedelta_seconds (now - start_time self)) ;;
  lift (Datetime.add (reference_dt self) td).

Definition isoweekday (self : MultiDayTestShape) : M Z :=
  dt <- _current_dt self ;; ret (Datetime.isoweekday dt).

Definition hour (self : MultiDayTestShape) : M Z :=
  dt <- _current_dt self ;; ret (Datetime.hour dt).

Definition minute (self : MultiDayTestShape) : M Z :=
  dt <- _current_dt self ;; ret (Datetime.minute dt).

Definition minutes_since_ref_dt (self : MultiDayTestShape) : M R :=
  dt <- _current_dt self ;;
  ret (Datetime.total_seconds (Datetime.sub dt (reference_dt self)) / 60)%R.

Definition hours_since_ref_dt (self : MultiDayTestShape) : M R :=
  m <- minutes_since_ref_dt self ;; ret (m / 60)%R.

Definition days_since_ref_dt (self : MultiDayTestShape) : M R :=
  h <- hours_since_ref_dt self ;; ret (h / 24)%R.

(** What [tick] returns: [None], or the pair (user count, spawn rate). *)
Definition ShapeResult : Type := option (Z * Z).
Definition Done : ShapeResult := None.
Definition Target (concurrency ramp_rate : Z) : ShapeResult :=
  Some (concurrency, ramp_rate).

Definition peak_hours : list Z := [12; 13; 18; 19]%Z.

Definition extra_users_of (h : Z) : Z :=
  if Py.contains h peak_hours then 15%Z else 0%Z.

(** The sample formula, with the three readings of [days_since_ref_dt] in
    the order Python evaluates them. *)
Definition desired_users_of (d1 d2 d3 : R) (extra_users : Z) : R :=
  (5 * d1 + 10 * sin ((d2 - IZR (Py.floor d3)) * PI) + 10 + IZR extra_users)%R.

Definition tick (self : MultiDayTestShape) : M ShapeResult :=
  now <- perf_counter ;;
  if Rlt_dec (Datetime.total_seconds (run_duration self))
             (now - start_time self)
  then ret Done
  else
    h <- hour self ;;
    let extra_users := extra_users_of h in
    d1 <- days_since_ref_dt self ;;
    d2 <- days_since_ref_dt self ;;
    d3 <- days_since_ref_dt self ;;
    let desired_users := desired_users_of d1 d2 d3 extra_users in
    ret (Target (Z.max 0 (Py.round desired_users)) 100).

(** Run a computation from the first reading of a clock. *)
Definition run {A : Type} (c : M A) (clk : clock) : outcome A :=
  fst (c clk O).

(** ** The specification's view: a function of the elapsed time *)

(** [evaluate(elapsed)]: one [tick] during which the clock shows
    [start_time + elapsed] throughout. *)
Definition evaluate (self : MultiDayTestShape) (elapsed : R)
  : outcome ShapeResult :=
  run (tick self) (frozen (start_time self + elapsed)).

(** The hour component of VirtualNow at [elapsed]. *)
Definition virtual_hour (self : MultiDayTestShape) (elapsed : R) : outcome Z :=
  run (hour self) (frozen (start_time self + elapsed)).

(** The value of [days_since_ref_dt] at [elapsed]. *)
Definition virtual_days (self : MultiDayTestShape) (elapsed : R) : outcome R :=
  run (days_since_ref_dt self) (frozen (start_time self + elapsed)).

Definition RunDuration (self : MultiDayTestShape) : R :=
  Datetime.total_seconds (run_duration self).

(** [elapsed] as a [timedelta] holds it: to the nearest microsecond. *)
Definition to_microsecond (elapsed : R) : R :=
  (IZR (Py.round (elapsed * 1000000)) / 1000000)%R.

(** The quantities of the specification, following its wording; [seconds]
    is an elapsed time in seconds. *)
Module Spec.

Definition daysSinceRef (seconds : R) : R := (seconds / 86400)%R.

Definition dayFraction (seconds : R) : R :=
  (daysSinceRef seconds - IZR (Py.floor (daysSinceRef seconds)))%R.

Definition extraUsers (hourOfDay : Z) : Z :=
  if Py.contains hourOfDay [12; 13; 18; 19]%Z then 15%Z else 0%Z.

Definition dailyGrowth (seconds : R) : R := (5 * daysSinceRef seconds)%R.

Definition intraDayWave (seconds : R) : R :=
  (10 * sin (dayFraction seconds * PI))%R.

Definition baseline : R := 10%R.

Definition desired (seconds : R) (hourOfDay : Z) : R :=
  (dailyGrowth seconds + intraDayWave seconds + baseline
   + IZR (extraUsers hourOfDay))%R.

Definition concurrency (seconds : R) (hourOfDay : Z) : Z :=
  Z.max 0 (Py.round (desired seconds hourOfDay)).

(** Hour of day of the instant [seconds] after a reference that lies
    [ref_second_of_day] seconds into its day. *)
Definition hourOfDay (ref_second_of_day : R) (seconds : R) : Z :=
  (Py.floor ((ref_second_of_day + seconds) / 3600) mod 24)%Z.

End Spec.

(** ** Pure readings of the clock-dependent properties

    What each property computes once the reading of the clock is known. *)

(** The whole microseconds [timedelta(seconds=elapsed)] keeps. *)
Definition elapsed_us (elapsed : R) : Z := Py.round (elapsed * 1000000)%R.

Definition current_dt_at (self : MultiDayTestShape) (elapsed : R)
  : outcome Datetime.datetime :=
  match Datetime.timedelta_seconds elapsed with
  | Ret td => Datetime.add (reference_dt self) td
  | Raise x => Raise x
  end.

Definition days_between (dt ref : Datetime.datetime) : R :=
  (Datetime.total_seconds (Datetime.sub dt ref) / 60 / 60 / 24)%R.

(** The result of the sample formula when VirtualNow is [dt]. *)
Definition target_at (self : MultiDayTestShape) (dt : Datetime.datetime)
  : ShapeResult :=
  let d := days_between dt (reference_dt self) in
  Target (Z.max 0 (Py.round
            (desired_users_of d d d (extra_users_of (Datetime.hour dt))))) 100.

(** The reference is a calendar date and time, and the run ends at a
    representable one. *)
Definition configured (self : MultiDayTestShape) : Prop :=
  Datetime.valid (reference_dt self) /\
  (Datetime.instant_us (reference_dt self) + Datetime.to_us (run_duration self)
   < (Datetime.MAXORDINAL + 1) * Datetime.US_PER_DAY)%Z.

(** The hour of VirtualNow as a function of the microseconds elapsed. *)
Definition hour_after (self : MultiDayTestShape) (us : Z) : Z :=
  (((Datetime.instant_us (reference_dt self) + us)
    / (3600 * Datetime.US_PER_SECOND)) mod 24)%Z.


(** The ISO weekday and the minute of VirtualNow at [elapsed]. *)
Definition virtual_isoweekday (self : MultiDayTestShape) (elapsed : R)
  : outcome Z :=
  run (isoweekday self) (frozen (start_time self + elapsed)).

Definition virtual_minute (self : MultiDayTestShape) (elapsed : R)
  : outcome Z :=
  run (minute self) (frozen (start_time self + elapsed)).

(** The same instance with another [reference_dt]. *)
Definition with_reference_dt (self : MultiDayTestShape)
  (dt : Datetime.datetime) : MultiDayTestShape :=
  {| reference_dt := dt;
     run_duration := run_duration self;
     start_time := start_time self |}.

(** Seconds between the start of the run and the n-th reading of a clock. *)
Definition elapsed_at (self : MultiDayTestShape) (clk : clock) (n : nat) : R :=
  (clk n - start_time self)%R.

(** A clock that advances by one second at every reading. *)
Definition ticking (n : nat) : R := INR n.

(** [us] is a whole number of microseconds that a [timedelta] may keep for
    [elapsed] seconds: less than one microsecond away, and the nearest one
    whenever [elapsed] is within 0.499 microseconds of a whole microsecond
    (so away from ties). *)
Definition kept_microseconds (elapsed : R) (us : Z) : Prop :=
  (IZR us - 1 < elapsed * 1000000 < IZR us + 1)%R /\
  forall z : Z,
    (IZR z - 499 / 1000 <= elapsed * 1000000 <= IZR z + 499 / 1000)%R ->
    us = z.

(** * Properties *)

Local Open Scope R_scope.

(** ** [floor] and [round] *)

Lemma floor_bounds (x : R) : IZR (Py.floor x) <= x < IZR (Py.floor x) + 1.
Proof.
  unfold Py.floor. destruct (base_Int_part x) as [H1 H2]. lra.
Qed.

Lemma floor_unique (x : R) (z : Z) :
  IZR z <= x < IZR z + 1 -> Py.floor x = z.
Proof.
  intros [H1 H2]. unfold Py.floor. symmetry. apply Int_part_spec. lra.
Qed.

Lemma floor_IZR (z : Z) : Py.floor (IZR z) = z.
Proof. apply floor_unique. lra. Qed.

Lemma floor_mono (x y : R) : x <= y -> (Py.floor x <= Py.floor y)%Z.
Proof.
  intros Hxy.
  destruct (floor_bounds x) as [Hx _]. destruct (floor_bounds y) as [_ Hy].
  apply Z.lt_succ_r. apply lt_IZR. rewrite succ_IZR. lra.
Qed.


(** The three cases of [round]. *)
Lemma round_below (x : R) (z : Z) :
  IZR z <= x < IZR z + 1 / 2 -> Py.round x = z.
Proof.
  intros H. unfold Py.round.
  assert (Hf : Int_part x = z) by (apply floor_unique; lra).
  rewrite Hf. destruct (Rlt_dec (x - IZR z) (1 / 2)); [reflexivity | lra].
Qed.

Lemma round_above (x : R) (z : Z) :
  IZR z + 1 / 2 < x < IZR z + 1 -> Py.round x = (z + 1)%Z.
Proof.
  intros H. unfold Py.round.
  assert (Hf : Int_part x = z) by (apply floor_unique; lra).
  rewrite Hf. destruct (Rlt_dec (x - IZR z) (1 / 2)); [lra|].
  destruct (Rlt_dec (1 / 2) (x - IZR z)); [reflexivity | lra].
Qed.

Lemma round_tie (z : Z) :
  Py.round (IZR z + 1 / 2) = if Z.even z then z else (z + 1)%Z.
Proof.
  unfold Py.round.
  assert (Hf : Int_part (IZR z + 1 / 2) = z) by (apply floor_unique; lra).
  rewrite Hf. destruct (Rlt_dec (IZR z + 1 / 2 - IZR z) (1 / 2)); [lra|].
  destruct (Rlt_dec (1 / 2) (IZR z + 1 / 2 - IZR z)); [lra | reflexivity].
Qed.

Lemma round_IZR (z : Z) : Py.round (IZR z) = z.
Proof. apply round_below. lra. Qed.

(** A value strictly within a half of an integer rounds to it. *)
Lemma round_near (x : R) (z : Z) :
  IZR z - 1 / 2 < x < IZR z + 1 / 2 -> Py.round x = z.
Proof.
  intros H. destruct (Rle_lt_dec (IZR z) x) as [Hle | Hlt].
  - apply round_below. lra.
  - assert (Hr : Py.round x = (z - 1 + 1)%Z).
    { apply round_above. rewrite minus_IZR. lra. }
    rewrite Hr. lia.
Qed.

Lemma round_bounds (x : R) : x - 1 / 2 <= IZR (Py.round x) <= x + 1 / 2.
Proof.
  destruct (floor_bounds x) as [H1 H2]. unfold Py.round, Py.floor in *.
  destruct (Rlt_dec (x - IZR (Int_part x)) (1 / 2)); [lra|].
  destruct (Rlt_dec (1 / 2) (x - IZR (Int_part x))).
  - rewrite plus_IZR. lra.
  - destruct (Z.even (Int_part x)); [|rewrite plus_IZR]; lra.
Qed.

Lemma round_mono (x y : R) : x <= y -> (Py.round x <= Py.round y)%Z.
Proof.
  intros Hxy.
  destruct (Z.le_gt_cases (Py.round x) (Py.round y)) as [H | H]; [exact H|].
  exfalso.
  destruct (round_bounds x) as [_ Hx]. destruct (round_bounds y) as [Hy _].
  assert (H1 : IZR (Py.round y) + 1 <= IZR (Py.round x)).
  { rewrite <- succ_IZR. apply IZR_le. lia. }
  assert (Heq : x = y) by lra.
  subst y. lia.
Qed.

Lemma round_ge (x : R) (z : Z) : IZR z <= x -> (z <= Py.round x)%Z.
Proof.
  intros H. rewrite <- (round_IZR z). apply round_mono. exact H.
Qed.

(** A whole number of microseconds is kept as it is. *)
Lemma to_microsecond_IZR (us : Z) :
  to_microsecond (IZR us / 1000000) = IZR us / 1000000.
Proof.
  unfold to_microsecond. replace (IZR us / 1000000 * 1000000) with (IZR us) by lra.
  rewrite round_IZR. reflexivity.
Qed.

(** ** [timedelta] and [datetime] arithmetic *)

Section DatetimeFacts.

Import Datetime.
Local Open Scope Z_scope.

Lemma to_us_of_us (us : Z) : to_us (of_us us) = us.
Proof.
  unfold to_us, of_us, US_PER_DAY, SECONDS_PER_DAY, US_PER_SECOND. simpl.
  Z.div_mod_to_equations. lia.
Qed.

Lemma days_of_us_bounds (us lo hi : Z) :
  lo * US_PER_DAY <= us < (hi + 1) * US_PER_DAY ->
  lo <= days (of_us us) <= hi.
Proof.
  unfold of_us, US_PER_DAY, SECONDS_PER_DAY, US_PER_SECOND. simpl.
  intros H. Z.div_mod_to_equations. lia.
Qed.

Lemma total_seconds_of_us (us : Z) :
  total_seconds (of_us us) = (IZR us / 1000000)%R.
Proof. unfold total_seconds. rewrite to_us_of_us. reflexivity. Qed.

(** Adding a [timedelta] moves the instant by exactly that much. *)
Lemma add_instant (dt dt' : datetime) (td : timedelta) :
  add dt td = Ret dt' -> instant_us dt' = instant_us dt + to_us td.
Proof.
  unfold add.
  destruct ((0 <? _) && (_ <=? MAXORDINAL)); [|discriminate].
  intros H. injection H as <-.
  unfold instant_us at 1, second_of_day, of_us. simpl.
  unfold US_PER_DAY, SECONDS_PER_DAY, US_PER_SECOND.
  Z.div_mod_to_equations. lia.
Qed.

Lemma sub_instant (a b : datetime) :
  to_us (sub a b) = instant_us a - instant_us b.
Proof.
  unfold sub. rewrite to_us_of_us. unfold instant_us. lia.
Qed.

(** The round trip behind [minutes_since_ref_dt]. *)
Lemma sub_add (dt dt' : datetime) (td : timedelta) :
  add dt td = Ret dt' -> to_us (sub dt' dt) = to_us td.
Proof.
  intros H. rewrite sub_instant, (add_instant _ _ _ H). lia.
Qed.

Lemma add_hour (dt dt' : datetime) (td : timedelta) :
  add dt td = Ret dt' ->
  hour dt' = ((instant_us dt + to_us td) / (3600 * US_PER_SECOND)) mod 24.
Proof.
  unfold add.
  destruct ((0 <? _) && (_ <=? MAXORDINAL)); [|discriminate].
  intros H. injection H as <-. simpl.
  unfold US_PER_DAY, SECONDS_PER_DAY, US_PER_SECOND.
  Z.div_mod_to_equations. lia.
Qed.

Lemma add_hour_range (dt dt' : datetime) (td : timedelta) :
  add dt td = Ret dt' -> 0 <= hour dt' < 24.
Proof.
  intros H. rewrite (add_hour _ _ _ H). apply Z.mod_pos_bound. lia.
Qed.

(** [dt + td] is representable when the sum stays within the calendar. *)
Lemma add_defined (dt : datetime) (td : timedelta) :
  US_PER_DAY <= instant_us dt + to_us td < (MAXORDINAL + 1) * US_PER_DAY ->
  exists dt', add dt td = Ret dt'.
Proof.
  intros H. unfold add.
  destruct (days_of_us_bounds _ 1 MAXORDINAL H) as [H1 H2].
  replace (0 <? _) with true by (symmetry; apply Z.ltb_lt; lia).
  replace (_ <=? MAXORDINAL) with true by (symmetry; apply Z.leb_le; lia).
  simpl. eexists. reflexivity.
Qed.

Lemma instant_us_lower (dt : datetime) :
  valid dt -> ordinal dt * US_PER_DAY <= instant_us dt
              < (ordinal dt + 1) * US_PER_DAY.
Proof.
  unfold valid, instant_us, second_of_day, US_PER_DAY, SECONDS_PER_DAY,
    US_PER_SECOND.
  intros (Ho & Hh & Hm & Hs & Hu). lia.
Qed.

End DatetimeFacts.

(** ** One tick on a clock that stands still *)

Section FrozenClock.

Variable self : MultiDayTestShape.
Variable elapsed : R.

Let clk : clock := frozen (start_time self + elapsed).

Lemma frozen_reading (n : nat) : clk n - start_time self = elapsed.
Proof. unfold clk, frozen. ring. Qed.

Lemma current_dt_frozen (n : nat) :
  _current_dt self clk n = (current_dt_at self elapsed, S n).
Proof.
  unfold _current_dt, bind, perf_counter, lift, current_dt_at.
  rewrite frozen_reading.
  destruct (Datetime.timedelta_seconds elapsed) as [td | x]; [|reflexivity].
  destruct (Datetime.add (reference_dt self) td); reflexivity.
Qed.

Lemma hour_frozen (n : nat) :
  hour self clk n =
  (match current_dt_at self elapsed with
   | Ret dt => Ret (Datetime.hour dt)
   | Raise x => Raise x
   end, S n).
Proof.
  unfold hour, bind, ret. rewrite current_dt_frozen.
  destruct (current_dt_at self elapsed); reflexivity.
Qed.

Lemma days_since_ref_dt_frozen (n : nat) :
  days_since_ref_dt self clk n =
  (match current_dt_at self elapsed with
   | Ret dt => Ret (days_between dt (reference_dt self))
   | Raise x => Raise x
   end, S n).
Proof.
  unfold days_since_ref_dt, hours_since_ref_dt, minutes_since_ref_dt,
    bind, ret.
  rewrite current_dt_frozen.
  destruct (current_dt_at self elapsed); reflexivity.
Qed.

(** [evaluate] in closed form. *)
Lemma evaluate_frozen :
  evaluate self elapsed =
  if Rlt_dec (RunDuration self) elapsed then Ret Done
  else match current_dt_at self elapsed with
       | Ret dt => Ret (target_at self dt)
       | Raise x => Raise x
       end.
Proof.
  unfold evaluate, run, tick. fold clk.
  unfold bind at 1. unfold perf_counter at 1.
  rewrite frozen_reading. fold (RunDuration self).
  destruct (Rlt_dec (RunDuration self) elapsed); [reflexivity|].
  unfold bind. rewrite hour_frozen.
  destruct (current_dt_at self elapsed) as [dt | x] eqn:Hdt; [|reflexivity].
  rewrite !days_since_ref_dt_frozen, Hdt. reflexivity.
Qed.

Lemma virtual_hour_frozen :
  virtual_hour self elapsed =
  match current_dt_at self elapsed with
  | Ret dt => Ret (Datetime.hour dt)
  | Raise x => Raise x
  end.
Proof. unfold virtual_hour, run. fold clk. rewrite hour_frozen. reflexivity. Qed.

Lemma virtual_days_frozen :
  virtual_days self elapsed =
  match current_dt_at self elapsed with
  | Ret dt => Ret (days_between dt (reference_dt self))
  | Raise x => Raise x
  end.
Proof.
  unfold virtual_days, run. fold clk. rewrite days_since_ref_dt_frozen.
  reflexivity.
Qed.

End FrozenClock.

(** ** Inside the run *)

Lemma elapsed_us_nonneg (e : R) : 0 <= e -> (0 <= elapsed_us e)%Z.
Proof. intros H. apply round_ge. lra. Qed.

Lemma elapsed_us_mono (e1 e2 : R) :
  e1 <= e2 -> (elapsed_us e1 <= elapsed_us e2)%Z.
Proof. intros H. apply round_mono. lra. Qed.

Lemma elapsed_us_in_run (self : MultiDayTestShape) (e : R) :
  e <= RunDuration self ->
  (elapsed_us e <= Datetime.to_us (run_duration self))%Z.
Proof.
  unfold RunDuration, Datetime.total_seconds. intros H.
  rewrite <- (round_IZR (Datetime.to_us (run_duration self))).
  apply round_mono. lra.
Qed.

Lemma to_microsecond_elapsed_us (e : R) :
  to_microsecond e = IZR (elapsed_us e) / 1000000.
Proof. reflexivity. Qed.

(** Within the run of a configured shape VirtualNow exists; its distance to
    the reference is the elapsed time to the microsecond. *)
Lemma current_dt_in_run (self : MultiDayTestShape) (e : R) :
  configured self -> 0 <= e <= RunDuration self ->
  exists dt : Datetime.datetime,
    current_dt_at self e = Ret dt /\
    days_between dt (reference_dt self) = to_microsecond e / 86400 /\
    Datetime.hour dt =
      (((Datetime.instant_us (reference_dt self) + elapsed_us e)
        / (3600 * Datetime.US_PER_SECOND)) mod 24)%Z.
Proof.
  intros [Hv Hend] [H0 Hrun].
  pose proof (elapsed_us_nonneg e H0) as Hlo.
  pose proof (elapsed_us_in_run self e Hrun) as Hhi.
  pose proof (instant_us_lower _ Hv) as [Hi1 Hi2].
  assert (Hord : (1 <= Datetime.ordinal (reference_dt self))%Z)
    by (destruct Hv as [[? ?] _]; assumption).
  unfold current_dt_at, Datetime.timedelta_seconds, Datetime.checked.
  fold (elapsed_us e).
  assert (Hd : (0 <= Datetime.days (Datetime.of_us (elapsed_us e))
                <= Datetime.MAXORDINAL)%Z).
  { apply days_of_us_bounds.
    unfold Datetime.US_PER_DAY, Datetime.SECONDS_PER_DAY,
      Datetime.US_PER_SECOND, Datetime.MAXORDINAL in *. lia. }
  replace (Z.abs _ >? Datetime.MAX_DELTA_DAYS)%Z with false.
  2:{ symmetry. rewrite Z.gtb_ltb. apply Z.ltb_ge.
      unfold Datetime.MAX_DELTA_DAYS, Datetime.MAXORDINAL in *. lia. }
  destruct (add_defined (reference_dt self) (Datetime.of_us (elapsed_us e)))
    as [dt Hdt].
  { rewrite to_us_of_us.
    unfold Datetime.US_PER_DAY, Datetime.SECONDS_PER_DAY,
      Datetime.US_PER_SECOND, Datetime.MAXORDINAL in *. lia. }
  exists dt. split; [exact Hdt|]. split.
  - unfold days_between, Datetime.total_seconds.
    rewrite (sub_add _ _ _ Hdt), to_us_of_us, to_microsecond_elapsed_us.
    field.
  - rewrite (add_hour _ _ _ Hdt), to_us_of_us. reflexivity.
Qed.

Lemma evaluate_in_run (self : MultiDayTestShape) (e : R) :
  configured self -> 0 <= e <= RunDuration self ->
  let d := to_microsecond e / 86400 in
  let h := hour_after self (elapsed_us e) in
  virtual_hour self e = Ret h /\
  virtual_days self e = Ret d /\
  evaluate self e =
    Ret (Target (Z.max 0 (Py.round (desired_users_of d d d (extra_users_of h))))
                100).
Proof.
  intros Hc He d h.
  destruct (current_dt_in_run self e Hc He) as (dt & Hdt & Hd & Hh).
  rewrite virtual_hour_frozen, virtual_days_frozen, evaluate_frozen, Hdt.
  destruct (Rlt_dec (RunDuration self) e) as [Hlt | _]; [lra|].
  unfold target_at. rewrite Hd, Hh. repeat split; reflexivity.
Qed.

(** Whole days before the reference do not change the hour. *)
Lemma hour_after_time_of_day (self : MultiDayTestShape) (us : Z) :
  hour_after self us =
  (((Datetime.second_of_day (reference_dt self) * 1000000
     + Datetime.microsecond (reference_dt self) + us) / 3600000000) mod 24)%Z.
Proof.
  unfold hour_after, Datetime.instant_us, Datetime.SECONDS_PER_DAY,
    Datetime.US_PER_SECOND.
  set (sod := Datetime.second_of_day (reference_dt self)).
  set (mu := Datetime.microsecond (reference_dt self)).
  set (o := Datetime.ordinal (reference_dt self)).
  change (3600 * 1000000)%Z with 3600000000%Z.
  replace ((o * 86400 + sod) * 1000000 + mu + us)%Z
    with (sod * 1000000 + mu + us + (o * 24) * 3600000000)%Z by ring.
  rewrite Z.div_add by discriminate.
  rewrite Z.mod_add by discriminate.
  reflexivity.
Qed.


(** ** The sample instance *)

(** 2025-06-15 is day 739417 of the proleptic Gregorian calendar, a
    Sunday. *)
Example sample_reference_ordinal :
  Datetime.ordinal (Datetime.datetime_ymdh 2025 6 15 12) = 739417%Z /\
  Datetime.isoweekday (Datetime.datetime_ymdh 2025 6 15 12) = 7%Z.
Proof. split; vm_compute; reflexivity. Qed.

(** On a clock that stands still at the start, the properties read Sunday,
    12:00. *)
Example sample_reads_noon_at_start :
  run (isoweekday (sample_shape 0)) (frozen 0) = Ret 7%Z /\
  run (hour (sample_shape 0)) (frozen 0) = Ret 12%Z /\
  run (minute (sample_shape 0)) (frozen 0) = Ret 0%Z.
Proof.
  assert (Hus : Py.round ((0 - 0) * 1000000) = 0%Z).
  { replace ((0 - 0) * 1000000) with (IZR 0) by lra. apply round_IZR. }
  unfold run, isoweekday, hour, minute, _current_dt, bind, perf_counter, lift,
    ret, frozen, Datetime.timedelta_seconds.
  simpl start_time. rewrite Hus.
  repeat split; vm_compute; reflexivity.
Qed.

Lemma sample_configured (t0 : R) : configured (sample_shape t0).
Proof.
  unfold configured, Datetime.valid. simpl.
  repeat split; vm_compute; congruence.
Qed.

Lemma sample_RunDuration (t0 : R) : RunDuration (sample_shape t0) = 216000.
Proof.
  unfold RunDuration, Datetime.total_seconds. simpl.
  replace (Datetime.to_us (Datetime.timedelta_days_hours 2 12))
    with 216000000000%Z by (vm_compute; reflexivity).
  lra.
Qed.

Lemma sample_hour_after (t0 : R) (us : Z) :
  hour_after (sample_shape t0) us = (((43200000000 + us) / 3600000000) mod 24)%Z.
Proof. rewrite hour_after_time_of_day. reflexivity. Qed.

(** One evaluation of the sample instance inside its run, once the
    microseconds kept by the [timedelta] are known. *)
Lemma sample_evaluate (t0 e : R) (us : Z) :
  0 <= e <= 216000 -> elapsed_us e = us ->
  let d := IZR us / 1000000 / 86400 in
  let h := (((43200000000 + us) / 3600000000) mod 24)%Z in
  virtual_hour (sample_shape t0) e = Ret h /\
  virtual_days (sample_shape t0) e = Ret d /\
  evaluate (sample_shape t0) e =
    Ret (Target (Z.max 0 (Py.round (desired_users_of d d d (extra_users_of h))))
                100).
Proof.
  intros He Hus d h.
  assert (Hrun : 0 <= e <= RunDuration (sample_shape t0))
    by (rewrite sample_RunDuration; exact He).
  pose proof (evaluate_in_run _ e (sample_configured t0) Hrun) as H.
  cbv zeta in H.
  rewrite to_microsecond_elapsed_us, Hus, sample_hour_after in H.
  exact H.
Qed.

(** ** The wave at the middle and at the boundary of a day *)

Lemma desired_at_midpoint (k x : Z) :
  let d := IZR k + 1 / 2 in
  desired_users_of d d d x = 5 * d + 20 + IZR x.
Proof.
  intros d. unfold desired_users_of.
  assert (Hf : Py.floor d = k) by (apply floor_unique; unfold d; lra).
  rewrite Hf. replace ((d - IZR k) * PI) with (PI / 2) by (unfold d; lra).
  rewrite sin_PI2. lra.
Qed.

Lemma desired_at_boundary (k x : Z) :
  let d := IZR k in
  desired_users_of d d d x = 5 * d + 10 + IZR x.
Proof.
  intros d. unfold desired_users_of, d.
  rewrite floor_IZR. replace ((IZR k - IZR k) * PI) with 0 by lra.
  rewrite sin_0. lra.
Qed.

(** ** The end of the run *)

Lemma tick_done (self : MultiDayTestShape) (clk : clock) (n : nat) :
  RunDuration self < clk n - start_time self ->
  tick self clk n = (Ret Done, S n).
Proof.
  intros H. unfold tick, bind at 1. unfold perf_counter at 1.
  fold (RunDuration self).
  destruct (Rlt_dec (RunDuration self) (clk n - start_time self)) as [_ | Hn];
    [reflexivity | contradiction].
Qed.

(** On a clock that never runs backwards, a tick that starts after one that
    ended the run ends it too. *)
Lemma tick_done_later (self : MultiDayTestShape) (clk : clock) (i j : nat) :
  monotone clk -> (i <= j)%nat ->
  RunDuration self < clk i - start_time self ->
  tick self clk j = (Ret Done, S j).
Proof.
  intros Hm Hij Hi. apply tick_done.
  pose proof (Hm i j Hij). lra.
Qed.

Lemma evaluate_done (self : MultiDayTestShape) (e : R) :
  RunDuration self < e -> evaluate self e = Ret Done.
Proof.
  intros H. rewrite evaluate_frozen.
  destruct (Rlt_dec (RunDuration self) e); [reflexivity | contradiction].
Qed.

Lemma evaluate_not_done (self : MultiDayTestShape) (e : R) :
  e <= RunDuration self -> evaluate self e <> Ret Done.
Proof.
  intros H. rewrite evaluate_frozen.
  destruct (Rlt_dec (RunDuration self) e); [lra|].
  destruct (current_dt_at self e); unfold target_at, Target, Done; discriminate.
Qed.

(** The sample instance exactly at the end of its run: 60 hours after noon
    it is midnight, in the middle of the third day since the reference. *)
Lemma sample_at_run_duration (t0 : R) :
  evaluate (sample_shape t0) 216000 = Ret (Target 32 100).
Proof.
  destruct (sample_evaluate t0 216000 216000000000) as (_ & _ & H).
  - lra.
  - unfold elapsed_us. replace (216000 * 1000000) with (IZR 216000000000) by lra.
    apply round_IZR.
  - rewrite H. clear H.
    replace (IZR 216000000000 / 1000000 / 86400) with (IZR 2 + 1 / 2) by lra.
    rewrite desired_at_midpoint.
    replace (((43200000000 + 216000000000) / 3600000000) mod 24)%Z
      with 0%Z by reflexivity.
    replace (5 * (IZR 2 + 1 / 2) + 20 + IZR (extra_users_of 0))
      with (IZR 32 + 1 / 2) by (unfold extra_users_of; simpl; lra).
    rewrite round_tie. reflexivity.
Qed.

(** C2, as amended: [evaluate] returns [Done] for every elapsed duration
    strictly greater than RunDuration, and for no other; in particular not
    at the exact boundary where the elapsed time equals RunDuration. *)
Theorem C2_done_after_run_duration (self : MultiDayTestShape) (elapsed : R) :
  evaluate self elapsed = Ret Done <-> RunDuration self < elapsed.
Proof.
  split.
  - intros H. destruct (Rlt_le_dec (RunDuration self) elapsed) as [Hlt | Hle];
      [exact Hlt | elim (evaluate_not_done self elapsed Hle H)].
  - apply evaluate_done.
Qed.

Lemma C2_done_after_run_duration_witness :
  evaluate (sample_shape 0) 259200 = Ret Done.
Proof.
  apply (C2_done_after_run_duration (sample_shape 0) 259200).
  rewrite sample_RunDuration. lra.
Defined.

(** C2, as stated, fails at the boundary: with [elapsed] equal to
    RunDuration the sample instance returns the target (32, 100). *)
Lemma C2_boundary_counterexample :
  ~ (forall elapsed : R,
        RunDuration (sample_shape 0) <= elapsed ->
        evaluate (sample_shape 0) elapsed = Ret Done).
Proof.
  intros H. specialize (H 216000).
  rewrite sample_RunDuration, sample_at_run_duration in H.
  specialize (H (Rle_refl _)). discriminate H.
Qed.

(** C3: once the elapsed time exceeds RunDuration every later evaluation
    returns [Done]: for [e1 < e2] with [e1] beyond RunDuration, both the
    evaluation at [e1] and the one at [e2] return [Done], never a target. *)
Theorem C3_done_is_terminal (self : MultiDayTestShape) (e1 e2 : R) :
  RunDuration self < e1 -> e1 < e2 ->
  evaluate self e1 = Ret Done /\ evaluate self e2 = Ret Done /\
  forall c r : Z, evaluate self e2 <> Ret (Target c r).
Proof.
  intros H1 H12.
  assert (H2 : evaluate self e2 = Ret Done) by (apply evaluate_done; lra).
  split; [apply evaluate_done; exact H1|]. split; [exact H2|].
  intros c r. rewrite H2. discriminate.
Qed.

Lemma C3_done_is_terminal_witness :
  evaluate (sample_shape 0) 216001 = Ret Done /\
  evaluate (sample_shape 0) 216002 = Ret Done /\
  forall c r : Z, evaluate (sample_shape 0) 216002 <> Ret (Target c r).
Proof.
  apply (C3_done_is_terminal (sample_shape 0) 216001 216002).
  - rewrite sample_RunDuration. lra.
  - lra.
Defined.

(** ** Concrete scenarios on the sample instance *)

Lemma sample_at_zero (t0 : R) (td : Datetime.timedelta) :
  let self := with_run_duration (sample_shape t0) td in
  configured self -> 0 <= RunDuration self ->
  virtual_hour self 0 = Ret 12%Z /\ virtual_days self 0 = Ret 0 /\
  evaluate self 0 = Ret (Target 25 100).
Proof.
  intros self Hc Hrun.
  assert (He : 0 <= 0 <= RunDuration self) by lra.
  pose proof (evaluate_in_run self 0 Hc He) as H. cbv zeta in H.
  assert (Hus : elapsed_us 0 = 0%Z).
  { unfold elapsed_us. replace (0 * 1000000) with (IZR 0) by lra.
    apply round_IZR. }
  rewrite to_microsecond_elapsed_us, Hus, hour_after_time_of_day in H.
  replace (IZR 0 / 1000000 / 86400) with (IZR 0) in H by lra.
  rewrite desired_at_boundary in H.
  change (((Datetime.second_of_day (reference_dt self) * 1000000
            + Datetime.microsecond (reference_dt self) + 0) / 3600000000)
          mod 24)%Z with 12%Z in H.
  replace (5 * IZR 0 + 10 + IZR (extra_users_of 12)) with (IZR 25) in H
    by (unfold extra_users_of; simpl; lra).
  rewrite round_IZR in H. exact H.
Qed.

Lemma sample_after_twelve_hours (t0 e : R) :
  0 <= e <= 216000 -> elapsed_us e = 43200000000%Z ->
  virtual_hour (sample_shape t0) e = Ret 0%Z /\
  virtual_days (sample_shape t0) e = Ret (1 / 2) /\
  evaluate (sample_shape t0) e = Ret (Target 22 100).
Proof.
  intros He Hus.
  pose proof (sample_evaluate t0 e 43200000000 He Hus) as H. cbv zeta in H.
  replace (((43200000000 + 43200000000) / 3600000000) mod 24)%Z
    with 0%Z in H by reflexivity.
  replace (IZR 43200000000 / 1000000 / 86400) with (IZR 0 + 1 / 2) in H by lra.
  rewrite desired_at_midpoint in H.
  replace (5 * (IZR 0 + 1 / 2) + 20 + IZR (extra_users_of 0))
    with (IZR 22 + 1 / 2) in H by (unfold extra_users_of; simpl; lra).
  rewrite round_tie in H.
  replace (IZR 0 + 1 / 2) with (1 / 2) in H by lra.
  exact H.
Qed.

Lemma elapsed_us_twelve_hours : elapsed_us 43200 = 43200000000%Z.
Proof.
  unfold elapsed_us. replace (43200 * 1000000) with (IZR 43200000000) by lra.
  apply round_IZR.
Qed.

(** C5: with the constants of the class, [evaluate(0)] returns the target
    (25, 100): the virtual hour is 12, so 15 extra users are added, no day
    has passed and the day fraction is 0, so 0 + 0 + 10 + 15 = 25 users are
    desired. *)
Theorem C5_target_at_start (t0 : R) :
  virtual_hour (sample_shape t0) 0 = Ret 12%Z /\
  extra_users_of 12 = 15%Z /\
  virtual_days (sample_shape t0) 0 = Ret 0 /\
  desired_users_of 0 0 0 15 = 25 /\
  evaluate (sample_shape t0) 0 = Ret (Target 25 100).
Proof.
  assert (Hc : configured (with_run_duration (sample_shape t0)
                             (run_duration (sample_shape t0))))
    by exact (sample_configured t0).
  assert (Hr : 0 <= RunDuration (with_run_duration (sample_shape t0)
                                   (run_duration (sample_shape t0)))).
  { change (0 <= RunDuration (sample_shape t0)).
    rewrite sample_RunDuration. lra. }
  destruct (sample_at_zero t0 _ Hc Hr) as (Hh & Hd & Hev).
  repeat split; try assumption.
  pose proof (desired_at_boundary 0 15) as H. cbv zeta in H.
  rewrite H. lra.
Qed.

(** C6, as amended: with the constants of the class, [evaluate] at 12 hours
    returns the target (22, 100): the virtual hour is 0, no extra users,
    half a day has passed, 22.5 users are desired, and [round] sends the tie
    to the even neighbour 22. *)
Theorem C6_target_after_twelve_hours (t0 : R) :
  virtual_hour (sample_shape t0) 43200 = Ret 0%Z /\
  extra_users_of 0 = 0%Z /\
  virtual_days (sample_shape t0) 43200 = Ret (1 / 2) /\
  desired_users_of (1 / 2) (1 / 2) (1 / 2) 0 = 45 / 2 /\
  Py.round (45 / 2) = 22%Z /\
  evaluate (sample_shape t0) 43200 = Ret (Target 22 100).
Proof.
  destruct (sample_after_twelve_hours t0 43200) as (Hh & Hd & Hev);
    [lra | exact elapsed_us_twelve_hours |].
  repeat split; try assumption.
  - pose proof (desired_at_midpoint 0 0) as H. cbv zeta in H.
    replace (IZR 0 + 1 / 2) with (1 / 2) in H by lra. rewrite H. lra.
  - replace (45 / 2) with (IZR 22 + 1 / 2) by lra. rewrite round_tie.
    reflexivity.
Qed.

(** C6, as stated, fails: at 12 hours the sample instance does not return
    the target (23, 100). *)
Lemma C6_round_half_up_counterexample :
  evaluate (sample_shape 0) 43200 <> Ret (Target 23 100).
Proof.
  destruct (sample_after_twelve_hours 0 43200) as (_ & _ & Hev);
    [lra | exact elapsed_us_twelve_hours |].
  rewrite Hev. discriminate.
Qed.

(** ** A run of no positive length *)

Lemma zero_duration_configured :
  configured (with_run_duration (sample_shape 0)
                (Datetime.timedelta_days_hours 0 0)).
Proof.
  unfold configured, Datetime.valid. simpl.
  repeat split; vm_compute; congruence.
Qed.

Lemma zero_duration_RunDuration :
  RunDuration (with_run_duration (sample_shape 0)
                 (Datetime.timedelta_days_hours 0 0)) = 0.
Proof.
  unfold RunDuration, Datetime.total_seconds. simpl.
  replace (Datetime.to_us (Datetime.timedelta_days_hours 0 0))
    with 0%Z by (vm_compute; reflexivity).
  lra.
Qed.

(** C8, as amended: with RunDuration at most 0, [evaluate] returns [Done]
    for every elapsed time above 0, and for elapsed time 0 as well when
    RunDuration is negative. *)
Theorem C8_done_when_misconfigured (self : MultiDayTestShape) (elapsed : R) :
  RunDuration self <= 0 -> 0 <= elapsed ->
  (0 < elapsed \/ RunDuration self < 0) ->
  evaluate self elapsed = Ret Done.
Proof.
  intros Hrun He Hstrict. apply evaluate_done. lra.
Qed.

Lemma C8_done_when_misconfigured_witness :
  evaluate (with_run_duration (sample_shape 0)
              (Datetime.timedelta_days_hours 0 0)) 1 = Ret Done.
Proof.
  apply C8_done_when_misconfigured.
  - rewrite zero_duration_RunDuration. lra.
  - lra.
  - left. lra.
Defined.

(** C8, as stated, fails: with RunDuration equal to 0 the evaluation at
    elapsed time 0 returns the target (25, 100), not [Done]. *)
Lemma C8_zero_duration_counterexample :
  ~ (forall (self : MultiDayTestShape) (elapsed : R),
        RunDuration self <= 0 -> 0 <= elapsed ->
        evaluate self elapsed = Ret Done).
Proof.
  intros H.
  specialize (H (with_run_duration (sample_shape 0)
                   (Datetime.timedelta_days_hours 0 0)) 0).
  destruct (sample_at_zero 0 (Datetime.timedelta_days_hours 0 0)
              zero_duration_configured) as (_ & _ & Hev).
  - rewrite zero_duration_RunDuration. lra.
  - rewrite Hev, zero_duration_RunDuration in H.
    specialize (H (Rle_refl 0) (Rle_refl 0)). discriminate H.
Qed.

(** ** Bounds on the target inside the run *)

Lemma extra_users_nonneg (h : Z) : (0 <= extra_users_of h)%Z.
Proof. unfold extra_users_of. destruct (Py.contains h peak_hours); lia. Qed.

Lemma day_fraction_range (d : R) : 0 <= d - IZR (Py.floor d) < 1.
Proof. destruct (floor_bounds d). lra. Qed.

(** The half-sine bump is never negative. *)
Lemma wave_nonneg (d : R) : 0 <= sin ((d - IZR (Py.floor d)) * PI).
Proof.
  destruct (day_fraction_range d) as [H0 H1]. pose proof PI_RGT_0 as Hpi.
  apply sin_ge_0; nra.
Qed.

Lemma wave_le_1 (d : R) : sin ((d - IZR (Py.floor d)) * PI) <= 1.
Proof. apply SIN_bound. Qed.

Lemma desired_lower_bound (d : R) (x : Z) :
  0 <= d -> (0 <= x)%Z -> 10 <= desired_users_of d d d x.
Proof.
  intros Hd Hx. unfold desired_users_of.
  pose proof (wave_nonneg d). apply IZR_le in Hx. lra.
Qed.

Lemma virtual_days_nonneg (e : R) : 0 <= e -> 0 <= to_microsecond e / 86400.
Proof.
  intros He. rewrite to_microsecond_elapsed_us.
  pose proof (IZR_le _ _ (elapsed_us_nonneg e He)). lra.
Qed.

(** C4: for every elapsed duration strictly below RunDuration, [evaluate]
    returns a target whose concurrency is a non-negative integer and whose
    ramp rate is exactly 100. *)
Theorem C4_target_before_run_duration (self : MultiDayTestShape) (elapsed : R) :
  configured self -> 0 <= elapsed -> elapsed < RunDuration self ->
  exists concurrency : Z,
    evaluate self elapsed = Ret (Target concurrency 100) /\
    (0 <= concurrency)%Z.
Proof.
  intros Hc H0 H1.
  assert (He : 0 <= elapsed <= RunDuration self) by lra.
  destruct (evaluate_in_run self elapsed Hc He) as (_ & _ & Hev).
  eexists. split; [exact Hev | apply Z.le_max_l].
Qed.

Lemma C4_target_before_run_duration_witness :
  exists concurrency : Z,
    evaluate (sample_shape 0) 3600 = Ret (Target concurrency 100) /\
    (0 <= concurrency)%Z.
Proof.
  apply (C4_target_before_run_duration (sample_shape 0) 3600).
  - exact (sample_configured 0).
  - lra.
  - rewrite sample_RunDuration. lra.
Defined.

(** C10: for every elapsed duration within the run the desired number of
    users is at least 10, so the returned concurrency is at least 10 and
    equals [round(desired)]: clamping at 0 never changes the value. *)
Theorem C10_at_least_ten_users (self : MultiDayTestShape) (elapsed : R) :
  configured self -> 0 <= elapsed <= RunDuration self ->
  exists (d : R) (h : Z),
    virtual_days self elapsed = Ret d /\
    virtual_hour self elapsed = Ret h /\
    0 <= 5 * d /\
    0 <= 10 * sin ((d - IZR (Py.floor d)) * PI) /\
    (0 <= extra_users_of h)%Z /\
    10 <= desired_users_of d d d (extra_users_of h) /\
    evaluate self elapsed =
      Ret (Target (Py.round (desired_users_of d d d (extra_users_of h))) 100) /\
    (10 <= Py.round (desired_users_of d d d (extra_users_of h)))%Z /\
    Z.max 0 (Py.round (desired_users_of d d d (extra_users_of h)))
    = Py.round (desired_users_of d d d (extra_users_of h)).
Proof.
  intros Hc He.
  destruct (evaluate_in_run self elapsed Hc He) as (Hh & Hd & Hev).
  set (d := to_microsecond elapsed / 86400) in *.
  set (h := hour_after self (elapsed_us elapsed)) in *.
  assert (Hd0 : 0 <= d) by (apply virtual_days_nonneg; lra).
  pose proof (extra_users_nonneg h) as Hx.
  pose proof (desired_lower_bound d _ Hd0 Hx) as Hdes.
  assert (Hr : (10 <= Py.round (desired_users_of d d d (extra_users_of h)))%Z)
    by (apply round_ge; exact Hdes).
  assert (Hmax : Z.max 0 (Py.round (desired_users_of d d d (extra_users_of h)))
                 = Py.round (desired_users_of d d d (extra_users_of h)))
    by (apply Z.max_r; lia).
  exists d, h. repeat split; try assumption.
  - lra.
  - pose proof (wave_nonneg d). lra.
  - rewrite Hev, Hmax. reflexivity.
Qed.

Lemma C10_at_least_ten_users_witness :
  exists (d : R) (h : Z),
    virtual_days (sample_shape 0) 3600 = Ret d /\
    virtual_hour (sample_shape 0) 3600 = Ret h /\
    0 <= 5 * d /\
    0 <= 10 * sin ((d - IZR (Py.floor d)) * PI) /\
    (0 <= extra_users_of h)%Z /\
    10 <= desired_users_of d d d (extra_users_of h) /\
    evaluate (sample_shape 0) 3600 =
      Ret (Target (Py.round (desired_users_of d d d (extra_users_of h))) 100) /\
    (10 <= Py.round (desired_users_of d d d (extra_users_of h)))%Z /\
    Z.max 0 (Py.round (desired_users_of d d d (extra_users_of h)))
    = Py.round (desired_users_of d d d (extra_users_of h)).
Proof.
  apply (C10_at_least_ten_users (sample_shape 0) 3600).
  - exact (sample_configured 0).
  - rewrite sample_RunDuration. lra.
Defined.

(** ** Long-term growth *)

Lemma desired_mono (d1 d2 : R) (x : Z) :
  d1 <= d2 ->
  d1 - IZR (Py.floor d1) = d2 - IZR (Py.floor d2) ->
  desired_users_of d1 d1 d1 x <= desired_users_of d2 d2 d2 x.
Proof.
  intros Hd Hf. unfold desired_users_of. rewrite Hf. lra.
Qed.

Lemma Ret_inj {A : Type} (a b : A) : Ret a = Ret b -> a = b.
Proof. intros H. injection H as H. exact H. Qed.

Lemma sample_after_one_day (t0 : R) :
  virtual_hour (sample_shape t0) 86400 = Ret 12%Z /\
  virtual_days (sample_shape t0) 86400 = Ret 1 /\
  evaluate (sample_shape t0) 86400 = Ret (Target 30 100).
Proof.
  assert (Hus : elapsed_us 86400 = 86400000000%Z).
  { unfold elapsed_us. replace (86400 * 1000000) with (IZR 86400000000) by lra.
    apply round_IZR. }
  pose proof (sample_evaluate t0 86400 86400000000 ltac:(lra) Hus) as H.
  cbv zeta in H.
  replace (((43200000000 + 86400000000) / 3600000000) mod 24)%Z
    with 12%Z in H by reflexivity.
  replace (IZR 86400000000 / 1000000 / 86400) with (IZR 1) in H by lra.
  rewrite desired_at_boundary in H.
  replace (5 * IZR 1 + 10 + IZR (extra_users_of 12)) with (IZR 30) in H
    by (unfold extra_users_of; simpl; lra).
  rewrite round_IZR in H. exact H.
Qed.

(** C9: for two elapsed values [e1 <= e2] within the run whose day
    fractions are equal and whose virtual hours give the same extra users,
    the days since the reference do not decrease and the concurrency
    returned at [e2] is at least the one returned at [e1]. *)
Theorem C9_growth_is_monotone (self : MultiDayTestShape) (e1 e2 d1 d2 : R)
  (h1 h2 : Z) :
  configured self -> 0 <= e1 -> e1 <= e2 -> e2 <= RunDuration self ->
  virtual_days self e1 = Ret d1 -> virtual_days self e2 = Ret d2 ->
  virtual_hour self e1 = Ret h1 -> virtual_hour self e2 = Ret h2 ->
  d1 - IZR (Py.floor d1) = d2 - IZR (Py.floor d2) ->
  extra_users_of h1 = extra_users_of h2 ->
  exists c1 c2 : Z,
    evaluate self e1 = Ret (Target c1 100) /\
    evaluate self e2 = Ret (Target c2 100) /\
    d1 <= d2 /\ (c1 <= c2)%Z.
Proof.
  intros Hc H0 H12 H2 Hd1 Hd2 Hh1 Hh2 Hfrac Hextra.
  destruct (evaluate_in_run self e1 Hc ltac:(lra)) as (Hh1' & Hd1' & Hev1).
  destruct (evaluate_in_run self e2 Hc ltac:(lra)) as (Hh2' & Hd2' & Hev2).
  rewrite Hd1 in Hd1'. rewrite Hd2 in Hd2'.
  rewrite Hh1 in Hh1'. rewrite Hh2 in Hh2'.
  apply Ret_inj in Hd1', Hd2', Hh1', Hh2'.
  rewrite <- Hd1', <- Hh1' in Hev1. rewrite <- Hd2', <- Hh2' in Hev2.
  assert (Hd : d1 <= d2).
  { rewrite Hd1', Hd2', !to_microsecond_elapsed_us.
    pose proof (IZR_le _ _ (elapsed_us_mono e1 e2 H12)). lra. }
  eexists. eexists. split; [exact Hev1|]. split; [exact Hev2|].
  split; [exact Hd|].
  apply Z.max_le_compat_l, round_mono.
  rewrite Hextra. apply desired_mono; assumption.
Qed.

Lemma C9_growth_is_monotone_witness :
  exists c1 c2 : Z,
    evaluate (sample_shape 0) 0 = Ret (Target c1 100) /\
    evaluate (sample_shape 0) 86400 = Ret (Target c2 100) /\
    0 <= 1 /\ (c1 <= c2)%Z.
Proof.
  destruct (sample_after_one_day 0) as (Hh2 & Hd2 & _).
  destruct (sample_at_zero 0 (run_duration (sample_shape 0))
              (sample_configured 0)) as (Hh1 & Hd1 & _).
  { change (0 <= RunDuration (sample_shape 0)).
    rewrite sample_RunDuration. lra. }
  apply (C9_growth_is_monotone (sample_shape 0) 0 86400 0 1 12 12).
  - exact (sample_configured 0).
  - lra.
  - lra.
  - rewrite sample_RunDuration. lra.
  - exact Hd1.
  - exact Hd2.
  - exact Hh1.
  - exact Hh2.
  - rewrite !floor_IZR. lra.
  - reflexivity.
Defined.

(** ** Where the wave peaks *)

(** Half a day into a day since the reference the sample instance shows
    midnight: its reference lies at noon. *)
Lemma sample_midpoint_hour (k : Z) :
  ((((43200000000 + (k * 86400000000 + 43200000000)) / 3600000000) mod 24)
   = 0)%Z.
Proof.
  replace (43200000000 + (k * 86400000000 + 43200000000))%Z
    with (((k + 1) * 24) * 3600000000)%Z by ring.
  rewrite Z.div_mul by discriminate. apply Z.mod_mul. discriminate.
Qed.

(** C7, on the code: for every elapsed time within the run of the sample
    instance at which the day fraction is one half, the wave term takes its
    maximum 10 and the hour of VirtualNow is 0, not 12. *)
Theorem C7_wave_peaks_at_hour_0 (t0 elapsed d : R) :
  0 <= elapsed <= RunDuration (sample_shape t0) ->
  virtual_days (sample_shape t0) elapsed = Ret d ->
  d - IZR (Py.floor d) = 1 / 2 ->
  10 * sin ((d - IZR (Py.floor d)) * PI) = 10 /\
  (forall d' : R, 10 * sin ((d' - IZR (Py.floor d')) * PI) <= 10) /\
  virtual_hour (sample_shape t0) elapsed = Ret 0%Z /\
  virtual_hour (sample_shape t0) elapsed <> Ret 12%Z.
Proof.
  intros He Hd Hfrac. rewrite sample_RunDuration in He.
  destruct (sample_evaluate t0 elapsed (elapsed_us elapsed) He eq_refl)
    as (Hh & Hd' & _).
  rewrite Hd in Hd'. apply Ret_inj in Hd'.
  assert (Hus : elapsed_us elapsed
                = (Py.floor d * 86400000000 + 43200000000)%Z).
  { apply eq_IZR. rewrite plus_IZR, mult_IZR. lra. }
  rewrite Hus, sample_midpoint_hour in Hh.
  split; [rewrite Hfrac; replace (1 / 2 * PI) with (PI / 2) by lra;
          rewrite sin_PI2; lra|].
  split; [intros d'; pose proof (wave_le_1 d'); lra|].
  split; [exact Hh|]. rewrite Hh. discriminate.
Qed.

Lemma C7_wave_peaks_at_hour_0_witness :
  10 * sin ((1 / 2 - IZR (Py.floor (1 / 2))) * PI) = 10 /\
  (forall d' : R, 10 * sin ((d' - IZR (Py.floor d')) * PI) <= 10) /\
  virtual_hour (sample_shape 0) 43200 = Ret 0%Z /\
  virtual_hour (sample_shape 0) 43200 <> Ret 12%Z.
Proof.
  destruct (sample_after_twelve_hours 0 43200) as (_ & Hd & _);
    [lra | exact elapsed_us_twelve_hours |].
  apply (C7_wave_peaks_at_hour_0 0 43200 (1 / 2)).
  - rewrite sample_RunDuration. lra.
  - exact Hd.
  - assert (Hf : Py.floor (1 / 2) = 0%Z) by (apply floor_unique; lra).
    rewrite Hf. lra.
Defined.

(** ** The formula of the specification *)


(** The model keeps a number of microseconds that the interpreter may
    keep too. *)
Lemma elapsed_us_kept (e : R) : kept_microseconds e (elapsed_us e).
Proof.
  unfold kept_microseconds, elapsed_us. split.
  - destruct (round_bounds (e * 1000000)). lra.
  - intros z Hz. apply round_near. lra.
Qed.







(** * Further properties of the class *)

(** ** The properties on any clock *)

Ltac by_current_dt lemma :=
  unfold bind, ret; rewrite lemma;
  match goal with
  | |- context [current_dt_at ?s ?e] => destruct (current_dt_at s e)
  end; reflexivity.

Lemma current_dt_any (self : MultiDayTestShape) (clk : clock) (n : nat) :
  _current_dt self clk n = (current_dt_at self (elapsed_at self clk n), S n).
Proof.
  unfold _current_dt, bind, perf_counter, lift, current_dt_at, elapsed_at.
  destruct (Datetime.timedelta_seconds (clk n - start_time self)) as [td | x];
    [|reflexivity].
  destruct (Datetime.add (reference_dt self) td); reflexivity.
Qed.

Lemma hour_any (self : MultiDayTestShape) (clk : clock) (n : nat) :
  hour self clk n =
  (match current_dt_at self (elapsed_at self clk n) with
   | Ret dt => Ret (Datetime.hour dt)
   | Raise x => Raise x
   end, S n).
Proof. unfold hour. by_current_dt current_dt_any. Qed.

Lemma minute_any (self : MultiDayTestShape) (clk : clock) (n : nat) :
  minute self clk n =
  (match current_dt_at self (elapsed_at self clk n) with
   | Ret dt => Ret (Datetime.minute dt)
   | Raise x => Raise x
   end, S n).
Proof. unfold minute. by_current_dt current_dt_any. Qed.

Lemma isoweekday_any (self : MultiDayTestShape) (clk : clock) (n : nat) :
  isoweekday self clk n =
  (match current_dt_at self (elapsed_at self clk n) with
   | Ret dt => Ret (Datetime.isoweekday dt)
   | Raise x => Raise x
   end, S n).
Proof. unfold isoweekday. by_current_dt current_dt_any. Qed.

Lemma minutes_since_ref_dt_any (self : MultiDayTestShape) (clk : clock)
  (n : nat) :
  minutes_since_ref_dt self clk n =
  (match current_dt_at self (elapsed_at self clk n) with
   | Ret dt =>
       Ret (Datetime.total_seconds (Datetime.sub dt (reference_dt self)) / 60)
   | Raise x => Raise x
   end, S n).
Proof. unfold minutes_since_ref_dt. by_current_dt current_dt_any. Qed.

Lemma hours_since_ref_dt_any (self : MultiDayTestShape) (clk : clock)
  (n : nat) :
  hours_since_ref_dt self clk n =
  (match current_dt_at self (elapsed_at self clk n) with
   | Ret dt =>
       Ret (Datetime.total_seconds (Datetime.sub dt (reference_dt self))
            / 60 / 60)
   | Raise x => Raise x
   end, S n).
Proof. unfold hours_since_ref_dt. by_current_dt minutes_since_ref_dt_any. Qed.

Lemma days_since_ref_dt_any (self : MultiDayTestShape) (clk : clock)
  (n : nat) :
  days_since_ref_dt self clk n =
  (match current_dt_at self (elapsed_at self clk n) with
   | Ret dt => Ret (days_between dt (reference_dt self))
   | Raise x => Raise x
   end, S n).
Proof. unfold days_since_ref_dt. by_current_dt hours_since_ref_dt_any. Qed.

(** When VirtualNow exists it is the reference plus the microseconds the
    [timedelta] kept. *)
Lemma current_dt_at_add (self : MultiDayTestShape) (e : R)
  (dt : Datetime.datetime) :
  current_dt_at self e = Ret dt ->
  Datetime.add (reference_dt self) (Datetime.of_us (elapsed_us e)) = Ret dt.
Proof.
  unfold current_dt_at, Datetime.timedelta_seconds, Datetime.checked.
  fold (elapsed_us e).
  destruct (Z.abs _ >? Datetime.MAX_DELTA_DAYS)%Z; [discriminate|].
  intros H. exact H.
Qed.

Lemma current_dt_at_days (self : MultiDayTestShape) (e : R)
  (dt : Datetime.datetime) :
  current_dt_at self e = Ret dt ->
  Datetime.total_seconds (Datetime.sub dt (reference_dt self))
  = to_microsecond e.
Proof.
  intros H. apply current_dt_at_add in H.
  unfold Datetime.total_seconds.
  rewrite (sub_add _ _ _ H), to_us_of_us. reflexivity.
Qed.

Lemma current_dt_at_hour (self : MultiDayTestShape) (e : R)
  (dt : Datetime.datetime) :
  current_dt_at self e = Ret dt ->
  Datetime.hour dt = hour_after self (elapsed_us e).
Proof.
  intros H. apply current_dt_at_add in H.
  rewrite (add_hour _ _ _ H), to_us_of_us. reflexivity.
Qed.

Lemma add_minute_range (dt dt' : Datetime.datetime) (td : Datetime.timedelta) :
  Datetime.add dt td = Ret dt' -> (0 <= Datetime.minute dt' < 60)%Z.
Proof.
  unfold Datetime.add.
  destruct ((0 <? _)%Z && (_ <=? Datetime.MAXORDINAL)%Z); [|discriminate].
  intros H. injection H as <-. simpl.
  pose proof (Z.mod_pos_bound (Datetime.seconds
       (Datetime.of_us (Datetime.instant_us dt + Datetime.to_us td)))
       3600 eq_refl) as [Hlo Hhi].
  split.
  - apply Z.div_pos; [exact Hlo | reflexivity].
  - apply Z.div_lt_upper_bound; [reflexivity | exact Hhi].
Qed.

Lemma isoweekday_range (dt : Datetime.datetime) :
  (1 <= Datetime.isoweekday dt <= 7)%Z.
Proof.
  unfold Datetime.isoweekday.
  pose proof (Z.mod_pos_bound (Datetime.ordinal dt) 7 eq_refl) as Hr.
  destruct (Datetime.ordinal dt mod 7 =? 0)%Z eqn:E; [lia|].
  apply Z.eqb_neq in E. lia.
Qed.

Lemma elapsed_us_zero : elapsed_us 0 = 0%Z.
Proof.
  unfold elapsed_us. replace (0 * 1000000) with (IZR 0) by lra.
  apply round_IZR.
Qed.

(** The first reading of the ticking clock on the sample instance. *)
Lemma sample_ticking_start :
  current_dt_at (sample_shape 0) (elapsed_at (sample_shape 0) ticking 0)
  = Ret (Datetime.mk_datetime 739417 12 0 0 0).
Proof.
  replace (elapsed_at (sample_shape 0) ticking 0) with 0
    by (unfold elapsed_at, ticking; simpl; lra).
  unfold current_dt_at, Datetime.timedelta_seconds. fold (elapsed_us 0).
  rewrite elapsed_us_zero. vm_compute. reflexivity.
Qed.

(** X3: whenever the [hour] property returns, its value is an hour of the
    day, from 0 to 23, and one reading of the clock was used. *)
Theorem hour_in_range (self : MultiDayTestShape) (clk : clock) (n n' : nat)
  (h : Z) :
  hour self clk n = (Ret h, n') -> (0 <= h < 24)%Z /\ n' = S n.
Proof.
  rewrite hour_any.
  destruct (current_dt_at self (elapsed_at self clk n)) as [dt | x] eqn:Hdt;
    [|discriminate].
  intros H. injection H as <- <-. split; [|reflexivity].
  apply current_dt_at_add in Hdt. exact (add_hour_range _ _ _ Hdt).
Qed.

Lemma hour_in_range_witness : (0 <= 12 < 24)%Z /\ 1%nat = 1%nat.
Proof.
  apply (hour_in_range (sample_shape 0) ticking 0 1 12).
  rewrite hour_any, sample_ticking_start. reflexivity.
Defined.

(** X4: whenever the [minute] property returns, its value is from 0 to 59,
    and one reading of the clock was used. *)
Theorem minute_in_range (self : MultiDayTestShape) (clk : clock) (n n' : nat)
  (m : Z) :
  minute self clk n = (Ret m, n') -> (0 <= m < 60)%Z /\ n' = S n.
Proof.
  rewrite minute_any.
  destruct (current_dt_at self (elapsed_at self clk n)) as [dt | x] eqn:Hdt;
    [|discriminate].
  intros H. injection H as <- <-. split; [|reflexivity].
  apply current_dt_at_add in Hdt. exact (add_minute_range _ _ _ Hdt).
Qed.

Lemma minute_in_range_witness : (0 <= 0 < 60)%Z /\ 1%nat = 1%nat.
Proof.
  apply (minute_in_range (sample_shape 0) ticking 0 1 0).
  rewrite minute_any, sample_ticking_start. reflexivity.
Defined.

(** X5: whenever the [isoweekday] property returns, its value is from 1
    (Monday) to 7 (Sunday), and one reading of the clock was used. *)
Theorem isoweekday_in_range (self : MultiDayTestShape) (clk : clock)
  (n n' : nat) (w : Z) :
  isoweekday self clk n = (Ret w, n') -> (1 <= w <= 7)%Z /\ n' = S n.
Proof.
  rewrite isoweekday_any.
  destruct (current_dt_at self (elapsed_at self clk n)) as [dt | x];
    [|discriminate].
  intros H. injection H as <- <-. split; [|reflexivity].
  apply isoweekday_range.
Qed.

Lemma isoweekday_in_range_witness : (1 <= 7 <= 7)%Z /\ 1%nat = 1%nat.
Proof.
  apply (isoweekday_in_range (sample_shape 0) ticking 0 1 7).
  rewrite isoweekday_any, sample_ticking_start. reflexivity.
Defined.




(** ** [tick] on a clock that moves *)

Lemma tick_not_done_in_run (self : MultiDayTestShape) (clk : clock)
  (n : nat) :
  elapsed_at self clk n <= RunDuration self ->
  fst (tick self clk n) <> Ret Done.
Proof.
  intros Hle.
  unfold tick, bind at 1. unfold perf_counter at 1.
  fold (elapsed_at self clk n). fold (RunDuration self).
  destruct (Rlt_dec (RunDuration self) (elapsed_at self clk n)); [lra|].
  unfold bind. rewrite hour_any.
  destruct (current_dt_at self (elapsed_at self clk (S n)));
    [|discriminate].
  rewrite days_since_ref_dt_any.
  destruct (current_dt_at self (elapsed_at self clk (S (S n))));
    [|discriminate].
  rewrite days_since_ref_dt_any.
  destruct (current_dt_at self (elapsed_at self clk (S (S (S n)))));
    [|discriminate].
  rewrite days_since_ref_dt_any.
  destruct (current_dt_at self (elapsed_at self clk (S (S (S (S n))))));
    discriminate.
Qed.

(** X2: whenever [tick] returns [None], the first reading of the clock it
    took lies more than [run_duration] after the start, and it took no
    further reading: while the clock is within the run [tick] never ends
    it, whatever the later readings are. *)
Theorem tick_done_only_after_run (self : MultiDayTestShape) (clk : clock)
  (n n' : nat) :
  tick self clk n = (Ret Done, n') ->
  RunDuration self < elapsed_at self clk n /\ n' = S n.
Proof.
  intros H.
  destruct (Rlt_le_dec (RunDuration self) (elapsed_at self clk n))
    as [Hlt | Hle].
  - split; [exact Hlt|].
    rewrite (tick_done self clk n Hlt) in H. injection H as <-. reflexivity.
  - exfalso. apply (tick_not_done_in_run self clk n Hle).
    rewrite H. reflexivity.
Qed.

Lemma tick_done_only_after_run_witness :
  RunDuration (sample_shape 0) < elapsed_at (sample_shape 0) (frozen 216001) 0
  /\ 1%nat = 1%nat.
Proof.
  apply (tick_done_only_after_run (sample_shape 0) (frozen 216001) 0 1).
  apply tick_done. rewrite sample_RunDuration.
  unfold frozen. simpl. lra.
Defined.




(** ** Whole days later *)

Lemma floor_add_int (x : R) (m : Z) :
  Py.floor (x + IZR m) = (Py.floor x + m)%Z.
Proof.
  apply floor_unique. destruct (floor_bounds x). rewrite plus_IZR. lra.
Qed.

(** Adding an even integer does not disturb the rounding of ties. *)
Lemma round_add_even (x : R) (m : Z) :
  Z.even m = true -> Py.round (x + IZR m) = (Py.round x + m)%Z.
Proof.
  intros Hm. unfold Py.round.
  assert (Hf : Int_part (x + IZR m) = (Int_part x + m)%Z)
    by exact (floor_add_int x m).
  rewrite Hf.
  replace (x + IZR m - IZR (Int_part x + m)) with (x - IZR (Int_part x))
    by (rewrite plus_IZR; ring).
  destruct (Rlt_dec (x - IZR (Int_part x)) (1 / 2)); [reflexivity|].
  destruct (Rlt_dec (1 / 2) (x - IZR (Int_part x))); [lia|].
  rewrite Z.even_add, Hm.
  destruct (Z.even (Int_part x)); simpl; lia.
Qed.

Lemma elapsed_us_add_seconds (e : R) (s : Z) :
  elapsed_us (e + IZR s) = (elapsed_us e + s * 1000000)%Z.
Proof.
  unfold elapsed_us.
  replace ((e + IZR s) * 1000000) with (e * 1000000 + IZR (s * 1000000))
    by (rewrite mult_IZR; ring).
  apply round_add_even. rewrite Z.even_mul. apply Bool.orb_true_r.
Qed.

Lemma hour_after_add_days (self : MultiDayTestShape) (us k : Z) :
  hour_after self (us + k * 86400 * 1000000) = hour_after self us.
Proof.
  rewrite !hour_after_time_of_day.
  set (a := (Datetime.second_of_day (reference_dt self) * 1000000
             + Datetime.microsecond (reference_dt self))%Z).
  replace (a + (us + k * 86400 * 1000000))%Z
    with (a + us + (k * 24) * 3600000000)%Z by ring.
  rewrite Z.div_add by discriminate.
  rewrite Z.mod_add by discriminate.
  reflexivity.
Qed.

(** A whole number of days later the wave is the same and the growth term
    is five users a day higher. *)
Lemma desired_add_days (d : R) (k x : Z) :
  desired_users_of (d + IZR k) (d + IZR k) (d + IZR k) x
  = desired_users_of d d d x + 5 * IZR k.
Proof.
  unfold desired_users_of. rewrite floor_add_int.
  replace ((d + IZR k - IZR (Py.floor d + k)) * PI)
    with ((d - IZR (Py.floor d)) * PI) by (rewrite plus_IZR; ring).
  ring.
Qed.

Lemma evaluate_days_later (self : MultiDayTestShape) (e : R) (k : Z) :
  configured self -> 0 <= e -> (0 <= k)%Z ->
  e + IZR k * 86400 <= RunDuration self ->
  let d := to_microsecond e / 86400 in
  let h := hour_after self (elapsed_us e) in
  virtual_hour self (e + IZR k * 86400) = Ret h /\
  virtual_days self (e + IZR k * 86400) = Ret (d + IZR k) /\
  evaluate self (e + IZR k * 86400) =
    Ret (Target (Z.max 0 (Py.round
                   (desired_users_of d d d (extra_users_of h) + 5 * IZR k)))
                100).
Proof.
  intros Hc He Hk Hrun d h.
  assert (Hk' : 0 <= IZR k) by (apply IZR_le; exact Hk).
  assert (Hin : 0 <= e + IZR k * 86400 <= RunDuration self) by nra.
  pose proof (evaluate_in_run self _ Hc Hin) as H. cbv zeta in H.
  assert (Hus : elapsed_us (e + IZR k * 86400)
                = (elapsed_us e + k * 86400 * 1000000)%Z).
  { replace (IZR k * 86400) with (IZR (k * 86400)) by (rewrite mult_IZR; ring).
    apply elapsed_us_add_seconds. }
  assert (Hd : to_microsecond (e + IZR k * 86400) / 86400 = d + IZR k).
  { unfold d. rewrite !to_microsecond_elapsed_us, Hus.
    rewrite plus_IZR, !mult_IZR. field. }
  rewrite Hd, Hus, hour_after_add_days, desired_add_days in H.
  exact H.
Qed.



(** X11: one day later in the run the virtual hour is the same, one more
    day has passed, five more users are desired, and the returned
    concurrency is higher by 4, 5 or 6 (rounding of ties). *)
Theorem one_day_later_five_more_desired (self : MultiDayTestShape)
  (elapsed : R) :
  configured self -> 0 <= elapsed -> elapsed + 86400 <= RunDuration self ->
  exists (h : Z) (d : R) (c1 c2 : Z),
    virtual_hour self elapsed = Ret h /\
    virtual_hour self (elapsed + 86400) = Ret h /\
    virtual_days self elapsed = Ret d /\
    virtual_days self (elapsed + 86400) = Ret (d + 1) /\
    desired_users_of (d + 1) (d + 1) (d + 1) (extra_users_of h)
    = desired_users_of d d d (extra_users_of h) + 5 /\
    evaluate self elapsed = Ret (Target c1 100) /\
    evaluate self (elapsed + 86400) = Ret (Target c2 100) /\
    (c1 + 4 <= c2 <= c1 + 6)%Z.
Proof.
  intros Hc He Hrun.
  assert (Hin : 0 <= elapsed <= RunDuration self) by lra.
  destruct (evaluate_in_run self elapsed Hc Hin) as (Hh1 & Hd1 & Hev1).
  replace (elapsed + 86400) with (elapsed + IZR 1 * 86400) in * by lra.
  destruct (evaluate_days_later self elapsed 1 Hc He ltac:(lia) Hrun)
    as (Hh2 & Hd2 & Hev2).
  set (d := to_microsecond elapsed / 86400) in *.
  set (h := hour_after self (elapsed_us elapsed)) in *.
  set (x := desired_users_of d d d (extra_users_of h)) in *.
  assert (Hx : 10 <= x).
  { apply desired_lower_bound;
      [apply virtual_days_nonneg; exact He | apply extra_users_nonneg]. }
  pose proof (round_ge x 10 Hx) as Hr1.
  assert (Hr2 : (10 <= Py.round (x + 5 * IZR 1))%Z) by (apply round_ge; lra).
  rewrite Z.max_r in Hev1, Hev2 by lia.
  exists h, d, (Py.round x), (Py.round (x + 5 * IZR 1)).
  repeat split; try assumption.
  - unfold x. rewrite (desired_add_days d 1 (extra_users_of h)). lra.
  - destruct (round_bounds x) as [_ Hu].
    destruct (round_bounds (x + 5 * IZR 1)) as [Hl _].
    apply Z.lt_succ_r, lt_IZR. rewrite succ_IZR, plus_IZR. lra.
  - destruct (round_bounds x) as [Hl _].
    destruct (round_bounds (x + 5 * IZR 1)) as [_ Hu].
    apply Z.lt_succ_r, lt_IZR. rewrite succ_IZR, plus_IZR. lra.
Qed.

Lemma one_day_later_five_more_desired_witness :
  exists (h : Z) (d : R) (c1 c2 : Z),
    virtual_hour (sample_shape 0) 3600 = Ret h /\
    virtual_hour (sample_shape 0) (3600 + 86400) = Ret h /\
    virtual_days (sample_shape 0) 3600 = Ret d /\
    virtual_days (sample_shape 0) (3600 + 86400) = Ret (d + 1) /\
    desired_users_of (d + 1) (d + 1) (d + 1) (extra_users_of h)
    = desired_users_of d d d (extra_users_of h) + 5 /\
    evaluate (sample_shape 0) 3600 = Ret (Target c1 100) /\
    evaluate (sample_shape 0) (3600 + 86400) = Ret (Target c2 100) /\
    (c1 + 4 <= c2 <= c1 + 6)%Z.
Proof.
  apply (one_day_later_five_more_desired (sample_shape 0) 3600).
  - exact (sample_configured 0).
  - lra.
  - rewrite sample_RunDuration. lra.
Defined.

Lemma hour_after_zero (self : MultiDayTestShape) :
  Datetime.valid (reference_dt self) ->
  hour_after self 0 = Datetime.hour (reference_dt self).
Proof.
  intros (_ & Hh & Hm & Hs & Hu). rewrite hour_after_time_of_day.
  unfold Datetime.second_of_day, Datetime.US_PER_SECOND in *.
  set (hh := Datetime.hour (reference_dt self)) in *.
  set (mm := Datetime.minute (reference_dt self)) in *.
  set (ss := Datetime.second (reference_dt self)) in *.
  set (uu := Datetime.microsecond (reference_dt self)) in *.
  replace ((hh * 3600 + mm * 60 + ss) * 1000000 + uu + 0)%Z
    with ((mm * 60 + ss) * 1000000 + uu + hh * 3600000000)%Z by ring.
  rewrite Z.div_add by discriminate.
  rewrite Z.div_small by lia.
  apply Z.mod_small. lia.
Qed.

(** X13: a whole number [k] of days into the run the wave term vanishes
    and the hour is that of the reference: [evaluate] returns
    5 k + 10 users, plus 15 when the reference hour is a peak hour. *)
Theorem target_after_whole_days (self : MultiDayTestShape) (k : Z) :
  configured self -> (0 <= k)%Z -> IZR k * 86400 <= RunDuration self ->
  virtual_hour self (IZR k * 86400)
  = Ret (Datetime.hour (reference_dt self)) /\
  evaluate self (IZR k * 86400) =
    Ret (Target (5 * k + 10
                 + extra_users_of (Datetime.hour (reference_dt self))) 100).
Proof.
  intros Hc Hk Hrun.
  replace (IZR k * 86400) with (0 + IZR k * 86400) in * by lra.
  destruct (evaluate_days_later self 0 k Hc (Rle_refl 0) Hk Hrun)
    as (Hh & _ & Hev).
  rewrite elapsed_us_zero, (hour_after_zero self (proj1 Hc)) in Hh, Hev.
  split; [exact Hh|]. rewrite Hev.
  rewrite to_microsecond_elapsed_us, elapsed_us_zero.
  replace (IZR 0 / 1000000 / 86400) with (IZR 0) by lra.
  rewrite desired_at_boundary.
  set (x := extra_users_of (Datetime.hour (reference_dt self))).
  replace (5 * IZR 0 + 10 + IZR x + 5 * IZR k) with (IZR (5 * k + 10 + x))
    by (rewrite !plus_IZR, mult_IZR; lra).
  rewrite round_IZR.
  pose proof (extra_users_nonneg (Datetime.hour (reference_dt self))).
  rewrite Z.max_r by (unfold x; lia). reflexivity.
Qed.

Lemma target_after_whole_days_witness :
  virtual_hour (sample_shape 0) (IZR 2 * 86400)
  = Ret (Datetime.hour (reference_dt (sample_shape 0))) /\
  evaluate (sample_shape 0) (IZR 2 * 86400) =
    Ret (Target (5 * 2 + 10 + extra_users_of
                   (Datetime.hour (reference_dt (sample_shape 0)))) 100).
Proof.
  apply (target_after_whole_days (sample_shape 0) 2).
  - exact (sample_configured 0).
  - lia.
  - rewrite sample_RunDuration. lra.
Defined.

(** ** The weekday *)

Lemma elapsed_at_frozen (self : MultiDayTestShape) (e : R) (n : nat) :
  elapsed_at self (frozen (start_time self + e)) n = e.
Proof. unfold elapsed_at, frozen. ring. Qed.

Lemma virtual_isoweekday_frozen (self : MultiDayTestShape) (e : R) :
  virtual_isoweekday self e =
  match current_dt_at self e with
  | Ret dt => Ret (Datetime.isoweekday dt)
  | Raise x => Raise x
  end.
Proof.
  unfold virtual_isoweekday, run.
  rewrite isoweekday_any, elapsed_at_frozen. reflexivity.
Qed.

Lemma add_ordinal (dt dt' : Datetime.datetime) (td : Datetime.timedelta) :
  Datetime.add dt td = Ret dt' ->
  Datetime.ordinal dt'
  = ((Datetime.instant_us dt + Datetime.to_us td) / 86400000000)%Z.
Proof.
  unfold Datetime.add.
  destruct ((0 <? _)%Z && (_ <=? Datetime.MAXORDINAL)%Z); [|discriminate].
  intros H. injection H as <-. reflexivity.
Qed.

Lemma isoweekday_next_day (a b : Datetime.datetime) :
  Datetime.ordinal b = (Datetime.ordinal a + 1)%Z ->
  Datetime.isoweekday b = (Datetime.isoweekday a mod 7 + 1)%Z.
Proof.
  unfold Datetime.isoweekday. intros ->.
  set (o := Datetime.ordinal a).
  pose proof (Z.mod_pos_bound o 7 eq_refl) as Hr.
  assert (Hnext : ((o + 1) mod 7
                   = if (o mod 7 =? 6)%Z then 0 else o mod 7 + 1)%Z).
  { rewrite Z.add_mod by discriminate.
    destruct (o mod 7 =? 6)%Z eqn:E.
    - apply Z.eqb_eq in E. rewrite E. reflexivity.
    - apply Z.eqb_neq in E. rewrite (Z.mod_small 1 7) by lia.
      apply Z.mod_small. lia. }
  rewrite Hnext.
  destruct (Z.eqb_spec (o mod 7) 6) as [E6 | E6];
    destruct (Z.eqb_spec (o mod 7) 0) as [E0 | E0].
  - lia.
  - rewrite E6. reflexivity.
  - rewrite E0. reflexivity.
  - replace (o mod 7 + 1 =? 0)%Z with false by (symmetry; apply Z.eqb_neq; lia).
    rewrite (Z.mod_small (o mod 7) 7) by lia. reflexivity.
Qed.

(** X12: one day later in the run the ISO weekday has moved on by one,
    Monday following Sunday. *)
Theorem isoweekday_advances_daily (self : MultiDayTestShape) (elapsed : R) :
  configured self -> 0 <= elapsed -> elapsed + 86400 <= RunDuration self ->
  exists w : Z,
    virtual_isoweekday self elapsed = Ret w /\
    virtual_isoweekday self (elapsed + 86400) = Ret (w mod 7 + 1)%Z.
Proof.
  intros Hc He Hrun.
  destruct (current_dt_in_run self elapsed Hc ltac:(lra)) as (a & Ha & _).
  destruct (current_dt_in_run self (elapsed + 86400) Hc ltac:(lra))
    as (b & Hb & _).
  rewrite !virtual_isoweekday_frozen, Ha, Hb.
  exists (Datetime.isoweekday a). split; [reflexivity|]. f_equal.
  apply isoweekday_next_day.
  apply current_dt_at_add in Ha, Hb.
  rewrite (add_ordinal _ _ _ Ha), (add_ordinal _ _ _ Hb), !to_us_of_us.
  replace (elapsed + 86400) with (elapsed + IZR 86400) by lra.
  rewrite elapsed_us_add_seconds.
  replace (Datetime.instant_us (reference_dt self)
           + (elapsed_us elapsed + 86400 * 1000000))%Z
    with (Datetime.instant_us (reference_dt self) + elapsed_us elapsed
          + 1 * 86400000000)%Z by ring.
  apply Z.div_add. discriminate.
Qed.

Lemma isoweekday_advances_daily_witness :
  exists w : Z,
    virtual_isoweekday (sample_shape 0) 3600 = Ret w /\
    virtual_isoweekday (sample_shape 0) (3600 + 86400) = Ret (w mod 7 + 1)%Z.
Proof.
  apply (isoweekday_advances_daily (sample_shape 0) 3600).
  - exact (sample_configured 0).
  - lra.
  - rewrite sample_RunDuration. lra.
Defined.

(** ** Errors and bounds *)

(** X7: on a configured instance [evaluate] raises for no elapsed time
    from 0 on: it returns [Done] or a target with spawn rate 100. *)
Theorem evaluate_never_raises (self : MultiDayTestShape) (elapsed : R) :
  configured self -> 0 <= elapsed ->
  evaluate self elapsed = Ret Done \/
  exists c : Z, evaluate self elapsed = Ret (Target c 100).
Proof.
  intros Hc He.
  destruct (Rlt_le_dec (RunDuration self) elapsed) as [Hlt | Hle].
  - left. apply evaluate_done. exact Hlt.
  - right. destruct (evaluate_in_run self elapsed Hc (conj He Hle))
      as (_ & _ & Hev).
    eexists. exact Hev.
Qed.

Lemma evaluate_never_raises_witness :
  evaluate (sample_shape 0) 1000000 = Ret Done \/
  exists c : Z, evaluate (sample_shape 0) 1000000 = Ret (Target c 100).
Proof.
  apply (evaluate_never_raises (sample_shape 0) 1000000).
  - exact (sample_configured 0).
  - lra.
Defined.

Lemma overflow_past_calendar (self : MultiDayTestShape) (elapsed : R) :
  elapsed <= RunDuration self ->
  ((Datetime.MAXORDINAL + 1) * Datetime.US_PER_DAY
   <= Datetime.instant_us (reference_dt self) + elapsed_us elapsed)%Z ->
  evaluate self elapsed = Raise OverflowError.
Proof.
  intros Hrun Hbig. rewrite evaluate_frozen.
  destruct (Rlt_dec (RunDuration self) elapsed); [lra|].
  unfold current_dt_at, Datetime.timedelta_seconds, Datetime.checked.
  fold (elapsed_us elapsed).
  destruct (Z.abs _ >? Datetime.MAX_DELTA_DAYS)%Z; [reflexivity|].
  unfold Datetime.add. rewrite to_us_of_us.
  replace (Datetime.days (Datetime.of_us
             (Datetime.instant_us (reference_dt self) + elapsed_us elapsed))
           <=? Datetime.MAXORDINAL)%Z with false.
  - rewrite Bool.andb_false_r. reflexivity.
  - symmetry. apply Z.leb_gt. unfold Datetime.of_us. simpl.
    apply Z.lt_le_trans with (Datetime.MAXORDINAL + 1)%Z; [lia|].
    apply Z.div_le_lower_bound; [reflexivity|].
    rewrite Z.mul_comm. exact Hbig.
Qed.

(** X8: when the run has not ended and the reference plus the elapsed time
    lies a microsecond or more beyond the last day of the calendar
    (9999-12-31), the evaluation raises [OverflowError]. *)
Theorem evaluate_overflows_past_calendar (self : MultiDayTestShape)
  (elapsed : R) :
  elapsed <= RunDuration self ->
  IZR ((Datetime.MAXORDINAL + 1) * Datetime.US_PER_DAY) + 1
  <= IZR (Datetime.instant_us (reference_dt self)) + elapsed * 1000000 ->
  evaluate self elapsed = Raise OverflowError.
Proof.
  intros Hrun Hbig. apply overflow_past_calendar; [exact Hrun|].
  destruct (round_bounds (elapsed * 1000000)) as [Hlo _].
  fold (elapsed_us elapsed) in Hlo.
  apply Z.lt_succ_r, lt_IZR. rewrite succ_IZR, plus_IZR. lra.
Qed.

Lemma evaluate_overflows_past_calendar_witness :
  evaluate (with_reference_dt (sample_shape 0)
              (Datetime.datetime_ymdh 9999 12 31 12)) 43201
  = Raise OverflowError.
Proof.
  apply evaluate_overflows_past_calendar.
  - change (43201 <= RunDuration (sample_shape 0)).
    rewrite sample_RunDuration. lra.
  - replace ((Datetime.MAXORDINAL + 1) * Datetime.US_PER_DAY)%Z
      with 315537984000000000%Z by (vm_compute; reflexivity).
    replace (Datetime.instant_us
               (reference_dt (with_reference_dt (sample_shape 0)
                                (Datetime.datetime_ymdh 9999 12 31 12))))
      with 315537940800000000%Z by (vm_compute; reflexivity).
    lra.
Defined.

Lemma extra_users_le_15 (h : Z) : (extra_users_of h <= 15)%Z.
Proof. unfold extra_users_of. destruct (Py.contains h peak_hours); lia. Qed.

Lemma desired_upper_bound (d : R) (x : Z) :
  (x <= 15)%Z -> desired_users_of d d d x <= 5 * d + 35.
Proof.
  intros Hx. unfold desired_users_of.
  pose proof (wave_le_1 d). apply IZR_le in Hx. lra.
Qed.

(** X9: within the run the returned concurrency never exceeds five users
    per day of [run_duration] plus 35.5: the baseline 10, the wave at most
    10, the peak-hour bonus 15, and the rounding. *)
Theorem concurrency_upper_bound (self : MultiDayTestShape) (elapsed : R) :
  configured self -> 0 <= elapsed <= RunDuration self ->
  exists c : Z,
    evaluate self elapsed = Ret (Target c 100) /\
    IZR c <= 5 * (RunDuration self / 86400) + 35 + 1 / 2.
Proof.
  intros Hc He.
  destruct (evaluate_in_run self elapsed Hc He) as (_ & _ & Hev).
  set (d := to_microsecond elapsed / 86400) in *.
  set (h := hour_after self (elapsed_us elapsed)) in *.
  set (x := desired_users_of d d d (extra_users_of h)) in *.
  assert (Hd0 : 0 <= d) by (apply virtual_days_nonneg; lra).
  assert (Hd1 : d <= RunDuration self / 86400).
  { unfold d, RunDuration, Datetime.total_seconds.
    rewrite to_microsecond_elapsed_us.
    pose proof (IZR_le _ _ (elapsed_us_in_run self elapsed (proj2 He))). lra. }
  assert (Hlo : 10 <= x)
    by (apply desired_lower_bound; [exact Hd0 | apply extra_users_nonneg]).
  assert (Hhi : x <= 5 * d + 35)
    by (apply desired_upper_bound, extra_users_le_15).
  pose proof (round_ge x 10 Hlo) as Hr.
  destruct (round_bounds x) as [_ Hu].
  exists (Py.round x). split.
  - rewrite Hev, Z.max_r by lia. reflexivity.
  - lra.
Qed.

Lemma concurrency_upper_bound_witness :
  exists c : Z,
    evaluate (sample_shape 0) 3600 = Ret (Target c 100) /\
    IZR c <= 5 * (RunDuration (sample_shape 0) / 86400) + 35 + 1 / 2.
Proof.
  apply (concurrency_upper_bound (sample_shape 0) 3600).
  - exact (sample_configured 0).
  - rewrite sample_RunDuration. lra.
Defined.

(** X14: for a clock reading a week or more before the start, whatever
    the evaluation returns is [Done] or the target (0, 100): the desired
    number of users is not positive and [max] clamps it to 0. *)
Theorem clamped_a_week_before_start (self : MultiDayTestShape) (elapsed : R)
  (r : ShapeResult) :
  elapsed <= - 604800 -> evaluate self elapsed = Ret r ->
  r = Done \/ r = Target 0 100.
Proof.
  intros He. rewrite evaluate_frozen.
  destruct (Rlt_dec (RunDuration self) elapsed);
    [intros H; left; symmetry; exact (Ret_inj _ _ H)|].
  destruct (current_dt_at self elapsed) as [dt | x] eqn:Hdt; [|discriminate].
  intros H. right. apply Ret_inj in H. subst r.
  unfold target_at, days_between.
  rewrite (current_dt_at_days _ _ _ Hdt).
  set (d := to_microsecond elapsed / 60 / 60 / 24).
  assert (Hd : d <= - 7).
  { unfold d. rewrite to_microsecond_elapsed_us.
    assert (Hus : (elapsed_us elapsed <= - 604800000000)%Z).
    { rewrite <- (round_IZR (- 604800000000)). apply round_mono. lra. }
    apply IZR_le in Hus. lra. }
  pose proof (desired_upper_bound d _ (extra_users_le_15 (Datetime.hour dt)))
    as Hhi.
  assert (Hr : (Py.round (desired_users_of d d d
                            (extra_users_of (Datetime.hour dt))) <= 0)%Z).
  { rewrite <- (round_IZR 0). apply round_mono. lra. }
  rewrite Z.max_l by exact Hr. reflexivity.
Qed.

Lemma clamped_a_week_before_start_witness :
  target_at (sample_shape 0) (Datetime.mk_datetime 739410 12 0 0 0) = Done \/
  target_at (sample_shape 0) (Datetime.mk_datetime 739410 12 0 0 0)
  = Target 0 100.
Proof.
  apply (clamped_a_week_before_start (sample_shape 0) (- 604800)).
  - lra.
  - rewrite evaluate_frozen, sample_RunDuration.
    destruct (Rlt_dec 216000 (- 604800)); [lra|].
    unfold current_dt_at, Datetime.timedelta_seconds.
    replace (Py.round (- 604800 * 1000000)) with (- 604800000000)%Z.
    + vm_compute. reflexivity.
    + symmetry. replace (- 604800 * 1000000) with (IZR (- 604800000000))
        by lra.
      apply round_IZR.
Defined.

(** ** Resolution and order in time *)

Lemma evaluate_same_microseconds (self : MultiDayTestShape) (e1 e2 : R) :
  e1 <= RunDuration self -> e2 <= RunDuration self ->
  elapsed_us e1 = elapsed_us e2 ->
  evaluate self e1 = evaluate self e2.
Proof.
  intros H1 H2 Hus. rewrite !evaluate_frozen.
  destruct (Rlt_dec (RunDuration self) e1); [lra|].
  destruct (Rlt_dec (RunDuration self) e2); [lra|].
  unfold current_dt_at, Datetime.timedelta_seconds.
  fold (elapsed_us e1). fold (elapsed_us e2). rewrite Hus. reflexivity.
Qed.

(** X15: before the end of the run the evaluation does not see what is
    finer than a microsecond: two elapsed times that both lie within 0.499
    microseconds of the same whole microsecond give the same result. *)
Theorem evaluate_constant_within_microsecond (self : MultiDayTestShape)
  (e1 e2 : R) (z : Z) :
  e1 <= RunDuration self -> e2 <= RunDuration self ->
  IZR z - 499 / 1000 <= e1 * 1000000 <= IZR z + 499 / 1000 ->
  IZR z - 499 / 1000 <= e2 * 1000000 <= IZR z + 499 / 1000 ->
  evaluate self e1 = evaluate self e2.
Proof.
  intros H1 H2 Hz1 Hz2. apply evaluate_same_microseconds; try assumption.
  rewrite (proj2 (elapsed_us_kept e1) z Hz1).
  rewrite (proj2 (elapsed_us_kept e2) z Hz2). reflexivity.
Qed.

Lemma evaluate_constant_within_microsecond_witness :
  evaluate (sample_shape 0) 43200
  = evaluate (sample_shape 0) (43200 + 4 / 10000000).
Proof.
  apply (evaluate_constant_within_microsecond (sample_shape 0) 43200
           (43200 + 4 / 10000000) 43200000000).
  - rewrite sample_RunDuration. lra.
  - rewrite sample_RunDuration. lra.
  - lra.
  - lra.
Defined.

(** X16: on a clock that never runs backwards [days_since_ref_dt] never
    decreases from one reading to a later one, and it is not negative once
    the clock has reached [start_time]. *)
Theorem days_since_ref_dt_monotone (self : MultiDayTestShape) (clk : clock)
  (i j i' j' : nat) (d1 d2 : R) :
  monotone clk -> (i <= j)%nat -> start_time self <= clk i ->
  days_since_ref_dt self clk i = (Ret d1, i') ->
  days_since_ref_dt self clk j = (Ret d2, j') ->
  0 <= d1 <= d2.
Proof.
  intros Hm Hij Hstart. rewrite !days_since_ref_dt_any.
  destruct (current_dt_at self (elapsed_at self clk i)) as [a | x] eqn:Ha;
    [|discriminate].
  destruct (current_dt_at self (elapsed_at self clk j)) as [b | y] eqn:Hb;
    [|discriminate].
  intros H1 H2. injection H1 as <- _. injection H2 as <- _.
  unfold days_between.
  rewrite (current_dt_at_days _ _ _ Ha), (current_dt_at_days _ _ _ Hb).
  rewrite !to_microsecond_elapsed_us.
  assert (H0 : 0 <= elapsed_at self clk i) by (unfold elapsed_at; lra).
  assert (Hle : elapsed_at self clk i <= elapsed_at self clk j).
  { unfold elapsed_at. pose proof (Hm i j Hij). lra. }
  pose proof (IZR_le _ _ (elapsed_us_nonneg _ H0)).
  pose proof (IZR_le _ _ (elapsed_us_mono _ _ Hle)).
  lra.
Qed.

Lemma days_since_ref_dt_monotone_witness :
  0 <= to_microsecond (elapsed_at (sample_shape 0) ticking 0) / 86400
    <= to_microsecond (elapsed_at (sample_shape 0) ticking 1) / 86400.
Proof.
  assert (Hin : forall k : nat, (k <= 1)%nat ->
            0 <= elapsed_at (sample_shape 0) ticking k
              <= RunDuration (sample_shape 0)).
  { intros k Hk. rewrite sample_RunDuration.
    unfold elapsed_at, ticking. simpl start_time.
    pose proof (pos_INR k). apply le_INR in Hk. simpl in Hk. lra. }
  destruct (current_dt_in_run (sample_shape 0) _ (sample_configured 0)
              (Hin 0%nat ltac:(lia))) as (a & Ha & Hda & _).
  destruct (current_dt_in_run (sample_shape 0) _ (sample_configured 0)
              (Hin 1%nat ltac:(lia))) as (b & Hb & Hdb & _).
  apply (days_since_ref_dt_monotone (sample_shape 0) ticking 0 1 1 2).
  - intros i j Hij. unfold ticking. apply le_INR. exact Hij.
  - lia.
  - unfold ticking. simpl. lra.
  - rewrite days_since_ref_dt_any, Ha, Hda. reflexivity.
  - rewrite days_since_ref_dt_any, Hb, Hdb. reflexivity.
Defined.
